(** * Multi-Agent Think Tank: agent state, confidence model and workflow nodes

    A shallow embedding of [src/agents/base_agent.py], of the [process] /
    [collaborate] template shared by the seven agent classes of
    [src/agents/], and of [src/workflow/base_node.py].

    Conventions of the embedding.
    - Python objects live in a store indexed by object identity
      ([AgentRef], [NodeRef]); a method is a computation over that store
      that returns a value or raises.
    - [float] is read as exact rational arithmetic ([Q]); rounding of IEEE
      doubles is outside the model.
    - [str] is a byte string whose letters are the ASCII ones.
    - [Any] ranges over [PyVal]: None, str, float, list, dict, int, bool.
    - An exception is identified by the name of its class; the classes that
      derive from [BaseException] and not from [Exception] are those of the
      standard library ([BaseException_only]).
    - [async] methods are run to completion at the call: nothing in the two
      modules suspends between statements other than on the call awaited. *)

From Stdlib Require Import ZArith QArith Qpower Lqa String Ascii List Lia.
From stdpp Require Import base option list gmap sets strings pretty.

Local Open Scope string_scope.
Local Open Scope list_scope.

(** ** Python values, exceptions and outcomes *)

Module py.

#[warnings="-register-all"]
Inductive PyVal : Type :=
| VNone
| VStr (s : string)
| VFloat (q : Q)
| VList (l : list PyVal)
| VDict (d : list (string * PyVal))
| VInt (n : Z)
| VBool (b : bool).

(** An exception object: its class, the single message it was built with,
    and [__context__], which Python sets when an exception is raised while
    another one is being handled. *)
#[warnings="-register-all"]
Inductive PyExc : Type :=
| MkExc (cls : string) (msg : string) (ctx : option PyExc).

Definition exc_class (e : PyExc) : string := let 'MkExc c _ _ := e in c.
Definition exc_msg (e : PyExc) : string := let 'MkExc _ m _ := e in m.

(** [str(e)] of an exception built from one string. *)
Definition str (e : PyExc) : string := exc_msg e.

(** The classes of the standard library that derive from [BaseException]
    and not from [Exception] ([asyncio.CancelledError] since Python 3.8). *)
Definition BaseException_only : list string :=
  ["BaseException"; "BaseExceptionGroup"; "GeneratorExit"; "KeyboardInterrupt";
   "SystemExit"; "CancelledError"].

(** [isinstance(e, Exception)]: what [except Exception] catches. *)
Definition is_Exception (e : PyExc) : bool :=
  negb (bool_decide (exc_class e ∈ BaseException_only)).

Inductive Outcome (A : Type) : Type :=
| Return (a : A)
| Raise (e : PyExc).
Arguments Return {A} a.
Arguments Raise {A} e.

Definition is_raise {A} (o : Outcome A) : bool :=
  match o with Raise _ => true | Return _ => false end.

(** The outcome is an error that [except Exception] catches. *)
Definition raised_Exception {A} (o : Outcome A) : bool :=
  match o with Raise e => is_Exception e | Return _ => false end.

(** Lookup in a dict literal (insertion order, first binding of the key). *)
Fixpoint dict_get (d : list (string * PyVal)) (k : string) : option PyVal :=
  match d with
  | [] => None
  | (k', v) :: rest => if String.eqb k k' then Some v else dict_get rest k
  end.

Definition getitem (v : PyVal) (k : string) : option PyVal :=
  match v with VDict d => dict_get d k | _ => None end.

(** [str.lower] on ASCII letters. *)
Definition is_upper (c : ascii) : bool :=
  let n := nat_of_ascii c in (65 <=? n)%nat && (n <=? 90)%nat.

Definition lower_ascii (c : ascii) : ascii :=
  if is_upper c then ascii_of_nat (nat_of_ascii c + 32) else c.

Fixpoint lower (s : string) : string :=
  match s with
  | EmptyString => EmptyString
  | String c rest => String (lower_ascii c) (lower rest)
  end.


(** The double-quote character, for messages that contain it. *)
Definition dquote : string := String (ascii_of_nat 34) EmptyString.


(** Sequencing of computations that return or raise without touching the
    store. *)
Definition obind {A B} (o : Outcome A) (f : A -> Outcome B) : Outcome B :=
  match o with Return a => f a | Raise e => Raise e end.

(** [d[k] = v] on a dict. *)
Fixpoint dict_set (d : list (string * PyVal)) (k : string) (v : PyVal)
  : list (string * PyVal) :=
  match d with
  | [] => [(k, v)]
  | (k', v') :: rest =>
      if String.eqb k k' then (k, v) :: rest else (k', v') :: dict_set rest k v
  end.

(** A private stage of an agent that wraps its own errors:
    [try: ... except Exception as e: raise Exception(f"LABEL: {str(e)}")].
    An error that is not an [Exception] passes through. *)
Definition stage {A} (label : string) (o : Outcome A) : Outcome A :=
  match o with
  | Return a => Return a
  | Raise e =>
      if is_Exception e
      then Raise (MkExc "Exception" (label +:+ ": " +:+ str e) (Some e))
      else Raise e
  end.

Definition impl : PyVal := VStr "Implementation needed".

End py.
Export py.

Declare Scope outcome_scope.
Delimit Scope outcome_scope with outcome.
Notation "x <~ o ;; k" := (obind o (fun x => k))
  (at level 100, o at next level, right associativity) : outcome_scope.

(** ** [agents/base_agent.py]: the objects *)

Module base_agent.

(** [class AgentPersonality(BaseModel)] *)
Record AgentPersonality : Type := {
  name : string;
  traits : list (string * Q);
  expertise : list string;
  description : string
}.

(** [class AgentState(BaseModel)].  The model class validates the fields
    when the object is built and not when a field is assigned, so each
    field holds an arbitrary value. *)
Record AgentState : Type := {
  current_task : PyVal;
  memory : PyVal;
  confidence : PyVal;
  context : PyVal
}.

(** [AgentState()]: the declared defaults. *)
Definition AgentState_new : AgentState :=
  {| current_task := VNone; memory := VDict []; confidence := VFloat 1;
     context := VDict [] |}.

(** The object behind [self.knowledge_base]: its [query] method. *)
Record KnowledgeBase : Type := { query : string -> Outcome PyVal }.

(** The instance attributes of a [BaseAgent]; [attrs] holds the ones a
    subclass adds in its own [__init__] ([analysis_history],
    [strategic_plans], ...). *)
Record BaseAgent : Type := {
  personality : AgentPersonality;
  state : AgentState;
  knowledge_base : option KnowledgeBase;
  attrs : gmap string PyVal
}.

(** [BaseAgent.__init__(personality)] followed by the subclass's own
    attribute assignments. *)
Definition BaseAgent_new (p : AgentPersonality) (own : gmap string PyVal)
  : BaseAgent :=
  {| personality := p; state := AgentState_new; knowledge_base := None;
     attrs := own |}.

Definition set_state (st : AgentState) (a : BaseAgent) : BaseAgent :=
  {| personality := personality a; state := st;
     knowledge_base := knowledge_base a; attrs := attrs a |}.

Definition set_attrs (own : gmap string PyVal) (a : BaseAgent) : BaseAgent :=
  {| personality := personality a; state := state a;
     knowledge_base := knowledge_base a; attrs := own |}.

Definition set_knowledge_base (kb : option KnowledgeBase) (a : BaseAgent)
  : BaseAgent :=
  {| personality := personality a; state := state a;
     knowledge_base := kb; attrs := attrs a |}.

(** What the body of a [try:] block of an agent method does: it returns or
    raises, it may rebind the subclass's own attributes, and it reads
    [datetime.now()] some number of times.  No such block in [src/agents/]
    assigns a field of [self.state] or touches another agent, except through
    the [other_agent.process] call that [collaborate] makes itself. *)
Record Body : Type := {
  outcome : Outcome PyVal;
  attrs_after : gmap string PyVal;
  clock_reads : nat
}.

(** An agent class: what the seven subclasses of [BaseAgent] differ in.
    Each defines [process] and [collaborate] on one template (see
    [process] and [collaborate] below); the class supplies the labels, the
    message prefixes and the bodies of the two [try:] blocks.  The third
    argument of a body gives the successive readings of
    [datetime.now().isoformat()]. *)
Record AgentClass : Type := {
  cls_personality : AgentPersonality;
  cls_attrs : gmap string PyVal;
  process_task : string;
  process_try : BaseAgent -> PyVal -> (nat -> string) -> Body;
  process_failed : string;
  collaborate_task : string;
  collaborate_try :
    BaseAgent -> AgentPersonality -> PyVal -> PyVal -> (nat -> string) -> Body;
  collaborate_failed : string
}.

(** An agent object together with its class. *)
Record Agent : Type := { class_of : AgentClass; obj : BaseAgent }.

Definition Agent_new (c : AgentClass) : Agent :=
  {| class_of := c; obj := BaseAgent_new (cls_personality c) (cls_attrs c) |}.

Definition set_obj (o : BaseAgent) (a : Agent) : Agent :=
  {| class_of := class_of a; obj := o |}.


(** The field names of [AgentState]. *)
Definition AgentState_fields : list string :=
  ["current_task"; "memory"; "confidence"; "context"].

(** Attributes that an object of a model class has besides its fields: the
    public methods it inherits from [pydantic.BaseModel] ([reflect] below
    calls [self.state.dict()]).  The object has more attributes than
    these, the private helpers and special names of [BaseModel] and of
    [object]; which ones depends on the library installed, so they are an
    argument, [inherited], of what follows. *)
Definition BaseModel_attrs : list string :=
  ["dict"; "json"; "copy"; "parse_obj"; "parse_raw"; "parse_file"; "from_orm";
   "construct"; "schema"; "schema_json"; "validate"; "update_forward_refs"].

(** [key] names an attribute of the state object that is not a field. *)
Definition other_attr (inherited : string -> bool) (key : string) : bool :=
  bool_decide (key ∈ BaseModel_attrs) || inherited key.

(** [hasattr(self.state, key)]: true of a field and of any other attribute
    of the object. *)
Definition hasattr (inherited : string -> bool) (st : AgentState)
  (key : string) : bool :=
  bool_decide (key ∈ AgentState_fields) || other_attr inherited key.

(** The error of the model class on an assignment to a name that is not a
    field: [ValueError('"AgentState" object has no field "KEY"')]. *)
Definition no_field (key : string) : PyExc :=
  MkExc "ValueError"
    (dquote +:+ "AgentState" +:+ dquote +:+ " object has no field "
       +:+ dquote +:+ key +:+ dquote) None.

(** [setattr(self.state, key, value)]: the model class stores the value
    when [key] is a field and refuses any other name. *)
Definition setattr (st : AgentState) (key : string) (value : PyVal)
  : Outcome AgentState :=
  if String.eqb key "current_task" then
    Return {| current_task := value; memory := memory st;
              confidence := confidence st; context := context st |}
  else if String.eqb key "memory" then
    Return {| current_task := current_task st; memory := value;
              confidence := confidence st; context := context st |}
  else if String.eqb key "confidence" then
    Return {| current_task := current_task st; memory := memory st;
              confidence := value; context := context st |}
  else if String.eqb key "context" then
    Return {| current_task := current_task st; memory := memory st;
              confidence := confidence st; context := value |}
  else Raise (no_field key).

(** [getattr(self.state, key)] for a field. *)
Definition getattr (st : AgentState) (key : string) : option PyVal :=
  if String.eqb key "current_task" then Some (current_task st)
  else if String.eqb key "memory" then Some (memory st)
  else if String.eqb key "confidence" then Some (confidence st)
  else if String.eqb key "context" then Some (context st)
  else None.

(** [BaseAgent.update_state]: the loop over [new_state.items()], in
    insertion order; an exception leaves the assignments already made. *)
Fixpoint update_state_items (inherited : string -> bool)
  (items : list (string * PyVal)) (st : AgentState)
  : Outcome unit * AgentState :=
  match items with
  | [] => (Return tt, st)
  | (key, value) :: rest =>
      if hasattr inherited st key then
        match setattr st key value with
        | Return st' => update_state_items inherited rest st'
        | Raise e => (Raise e, st)
        end
      else update_state_items inherited rest st
  end.

Definition update_state (inherited : string -> bool)
  (new_state : list (string * PyVal)) (self : BaseAgent)
  : Outcome unit * BaseAgent :=
  let '(r, st) := update_state_items inherited new_state (state self) in
  (r, set_state st self).

(** [BaseAgent.access_knowledge_base] *)
Definition access_knowledge_base (self : BaseAgent) (q : string)
  : Outcome PyVal :=
  match knowledge_base self with
  | None => Raise (MkExc "ValueError" "Knowledge base not initialized" None)
  | Some kb => query kb q
  end.

(** [self.state.dict()] *)
Definition AgentState_dict (st : AgentState) : PyVal :=
  VDict [("current_task", current_task st); ("memory", memory st);
         ("confidence", confidence st); ("context", context st)].

(** [BaseAgent.reflect] *)
Definition reflect (self : BaseAgent) : PyVal :=
  VDict [("state", AgentState_dict (state self));
         ("confidence", confidence (state self));
         ("current_focus", current_task (state self))].

(** [self.state.confidence *= factor], for a float [factor]. *)
Definition set_confidence (v : PyVal) (st : AgentState) : AgentState :=
  {| current_task := current_task st; memory := memory st; confidence := v;
     context := context st |}.

(** The float that a number is multiplied as: a float itself, an int, or a
    bool ([True] is 1, [False] is 0); nothing for the other values. *)
Definition as_number (v : PyVal) : option Q :=
  match v with
  | VFloat q => Some q
  | VInt n => Some (inject_Z n)
  | VBool b => Some (if b then 1%Q else 0%Q)
  | _ => None
  end.

(** The message of the [TypeError] of [v *= factor] for a [v] that is not
    a number (a [str] and a [list] are sequences). *)
Definition imul_TypeError (v : PyVal) : string :=
  match v with
  | VNone => "unsupported operand type(s) for *=: 'NoneType' and 'float'"
  | VDict _ => "unsupported operand type(s) for *=: 'dict' and 'float'"
  | _ => "can't multiply sequence by non-int of type 'float'"
  end.

(** The result of the product is a float; an operand that is not a number
    raises [TypeError] while [handled] is being handled. *)
Definition imul_confidence (factor : Q) (handled : PyExc) (self : BaseAgent)
  : Outcome unit * BaseAgent :=
  match as_number (confidence (state self)) with
  | Some q =>
      (Return tt, set_state (set_confidence (VFloat (q * factor)) (state self)) self)
  | None =>
      (Raise (MkExc "TypeError" (imul_TypeError (confidence (state self)))
                (Some handled)), self)
  end.

End base_agent.

(** ** [workflow/base_node.py]: the objects *)

Definition AgentRef : Type := nat.
Definition NodeRef : Type := nat.

Module base_node.

(** [class NodeState(BaseModel)] *)
Record NodeState : Type := {
  active : bool;
  completed : bool;
  iteration : Z;
  results : gmap string PyVal;
  errors : list string
}.

(** [NodeState()]: the declared defaults. *)
Definition NodeState_new : NodeState :=
  {| active := false; completed := false; iteration := 0%Z; results := ∅;
     errors := [] |}.

(** [class NodeConfig(BaseModel)] *)
Record NodeConfig : Type := {
  name : string;
  description : string;
  required_agents : list string;
  max_iterations : Z;
  timeout_seconds : Z;
  auto_proceed : bool
}.

(** The instance attributes of a [BaseWorkflowNode]; nodes and agents are
    held by reference. *)
Record BaseWorkflowNode : Type := {
  config : NodeConfig;
  state : NodeState;
  next_nodes : list NodeRef;
  previous_nodes : list NodeRef;
  participating_agents : gmap string AgentRef
}.

(** [BaseWorkflowNode.__init__(config)] *)
Definition BaseWorkflowNode_new (c : NodeConfig) : BaseWorkflowNode :=
  {| config := c; state := NodeState_new; next_nodes := [];
     previous_nodes := []; participating_agents := ∅ |}.

Definition set_state (st : NodeState) (n : BaseWorkflowNode)
  : BaseWorkflowNode :=
  {| config := config n; state := st; next_nodes := next_nodes n;
     previous_nodes := previous_nodes n;
     participating_agents := participating_agents n |}.

Definition set_next_nodes (l : list NodeRef) (n : BaseWorkflowNode)
  : BaseWorkflowNode :=
  {| config := config n; state := state n; next_nodes := l;
     previous_nodes := previous_nodes n;
     participating_agents := participating_agents n |}.

Definition set_previous_nodes (l : list NodeRef) (n : BaseWorkflowNode)
  : BaseWorkflowNode :=
  {| config := config n; state := state n; next_nodes := next_nodes n;
     previous_nodes := l; participating_agents := participating_agents n |}.

Definition set_participating_agents (m : gmap string AgentRef)
  (n : BaseWorkflowNode) : BaseWorkflowNode :=
  {| config := config n; state := state n; next_nodes := next_nodes n;
     previous_nodes := previous_nodes n; participating_agents := m |}.

Definition set_active (b : bool) (s : NodeState) : NodeState :=
  {| active := b; completed := completed s; iteration := iteration s;
     results := results s; errors := errors s |}.

Definition set_completed (b : bool) (s : NodeState) : NodeState :=
  {| active := active s; completed := b; iteration := iteration s;
     results := results s; errors := errors s |}.

Definition set_iteration (i : Z) (s : NodeState) : NodeState :=
  {| active := active s; completed := completed s; iteration := i;
     results := results s; errors := errors s |}.

Definition set_results (r : gmap string PyVal) (s : NodeState) : NodeState :=
  {| active := active s; completed := completed s; iteration := iteration s;
     results := r; errors := errors s |}.

Definition set_errors (l : list string) (s : NodeState) : NodeState :=
  {| active := active s; completed := completed s; iteration := iteration s;
     results := results s; errors := l |}.


(** [BaseWorkflowNode.start] *)
Definition start (self : BaseWorkflowNode) : BaseWorkflowNode :=
  let self := set_state (set_active true (state self)) self in
  let self := set_state (set_iteration 0 (state self)) self in
  let self := set_state (set_completed false (state self)) self in
  let self := set_state (set_results ∅ (state self)) self in
  set_state (set_errors [] (state self)) self.

(** [BaseWorkflowNode.complete].  Python stores the caller's dict itself;
    the model stores its value. *)
Definition complete (results : gmap string PyVal) (self : BaseWorkflowNode)
  : BaseWorkflowNode :=
  let self := set_state (set_active false (state self)) self in
  let self := set_state (set_completed true (state self)) self in
  set_state (set_results results (state self)) self.

(** [BaseWorkflowNode.handle_error].  The [RuntimeError] is built outside
    any handler of this method, so it carries no context of its own. *)
Definition max_iterations_reached (m : Z) : PyExc :=
  MkExc "RuntimeError"
    ("Max iterations (" +:+ pretty m +:+ ") reached with errors") None.

Definition handle_error (error : PyExc) (self : BaseWorkflowNode)
  : Outcome unit * BaseWorkflowNode :=
  let self :=
    set_state (set_errors (errors (state self) ++ [str error]) (state self)) self in
  if (max_iterations (config self) <=? Z.of_nat (length (errors (state self))))%Z
  then (Raise (max_iterations_reached (max_iterations (config self))), self)
  else (Return tt, self).

(** [__str__] of a bool and of the node. *)
Definition str_bool (b : bool) : string := if b then "True" else "False".

Definition str_node (self : BaseWorkflowNode) : string :=
  name (config self) +:+ " Node (Active: " +:+ str_bool (active (state self))
    +:+ ", Completed: " +:+ str_bool (completed (state self)) +:+ ")".

End base_node.

(** ** The object store and the computations over it *)

(** Every object identity denotes an object; [clock] gives the successive
    readings of [datetime.now().isoformat()] and [ticks] counts the readings
    made so far; [state_attrs] tells which names, other than the fields and
    the public methods of the model class, are attributes of an
    [AgentState] object in the library installed. *)
Record World : Type := {
  agents : AgentRef -> base_agent.Agent;
  nodes : NodeRef -> base_node.BaseWorkflowNode;
  clock : nat -> string;
  ticks : nat;
  state_attrs : string -> bool
}.

Definition upd {A : Type} (r : nat) (x : A) (h : nat -> A) : nat -> A :=
  fun r' => if Nat.eqb r' r then x else h r'.

Definition set_agents (h : AgentRef -> base_agent.Agent) (w : World) : World :=
  {| agents := h; nodes := nodes w; clock := clock w; ticks := ticks w;
     state_attrs := state_attrs w |}.

Definition set_nodes (h : NodeRef -> base_node.BaseWorkflowNode) (w : World)
  : World :=
  {| agents := agents w; nodes := h; clock := clock w; ticks := ticks w;
     state_attrs := state_attrs w |}.

Definition set_ticks (t : nat) (w : World) : World :=
  {| agents := agents w; nodes := nodes w; clock := clock w; ticks := t;
     state_attrs := state_attrs w |}.

(** A method call: from a store to a result (or an exception) and the store
    it leaves. *)
Definition M (A : Type) : Type := World -> Outcome A * World.

Definition ret {A} (a : A) : M A := fun w => (Return a, w).
Definition raise {A} (e : PyExc) : M A := fun w => (Raise e, w).

Definition bind {A B} (m : M A) (f : A -> M B) : M B :=
  fun w =>
    match m w with
    | (Return a, w') => f a w'
    | (Raise e, w') => (Raise e, w')
    end.

(** [try: m  except Exception as e: handler e].  An error that is not an
    [Exception] is not caught: it goes on to the caller. *)
Definition try_except {A} (m : M A) (handler : PyExc -> M A) : M A :=
  fun w =>
    match m w with
    | (Return a, w') => (Return a, w')
    | (Raise e, w') => if is_Exception e then handler e w' else (Raise e, w')
    end.

Declare Scope py_scope.
Delimit Scope py_scope with py.
Notation "x <- m ;; k" := (bind m (fun x => k))
  (at level 100, m at next level, right associativity) : py_scope.
Notation "m ;;; k" := (bind m (fun _ => k))
  (at level 100, right associativity) : py_scope.
Local Open Scope py_scope.

Definition get_agent (r : AgentRef) : M base_agent.BaseAgent :=
  fun w => (Return (base_agent.obj (agents w r)), w).

Definition get_class (r : AgentRef) : M base_agent.AgentClass :=
  fun w => (Return (base_agent.class_of (agents w r)), w).

Definition put_agent (r : AgentRef) (o : base_agent.BaseAgent) : M unit :=
  fun w =>
    (Return tt, set_agents (upd r (base_agent.set_obj o (agents w r)) (agents w)) w).

Definition get_node (r : NodeRef) : M base_node.BaseWorkflowNode :=
  fun w => (Return (nodes w r), w).

Definition put_node (r : NodeRef) (n : base_node.BaseWorkflowNode) : M unit :=
  fun w => (Return tt, set_nodes (upd r n (nodes w)) w).

(** A method that only touches its own object, run on the object [r]. *)
Definition on_agent {A} (r : AgentRef)
  (f : base_agent.BaseAgent -> Outcome A * base_agent.BaseAgent) : M A :=
  fun w =>
    let '(o, a) := f (base_agent.obj (agents w r)) in
    (o, set_agents (upd r (base_agent.set_obj a (agents w r)) (agents w)) w).

Definition on_node {A} (r : NodeRef)
  (f : base_node.BaseWorkflowNode -> Outcome A * base_node.BaseWorkflowNode)
  : M A :=
  fun w => let '(o, n) := f (nodes w r) in (o, set_nodes (upd r n (nodes w)) w).

(** ** The agent classes: [process] and [collaborate]

    The seven classes of [src/agents/] write the two methods alike:
<<
    async def process(self, input_data):
        await self.update_state({"current_task": TASK})
        try:
            ...                                    # process_try
        except Exception as e:
            self.state.confidence *= 0.8
            raise Exception(f"PREFIX: {str(e)}")

    async def collaborate(self, other_agent, context):
        await self.update_state(
            {"current_task": f"TASK_{other_agent.personality.name}"})
        try:
            other = await other_agent.process(context)
            ...                                    # collaborate_try
        except Exception as e:
            self.state.confidence *= 0.9
            raise Exception(f"PREFIX: {str(e)}")
>>
    with these labels and prefixes:
    - Analyst: data_analysis / Analysis failed; collaboration_with_ /
      Collaborative analysis failed
    - Challenger: critical_evaluation / Critical evaluation failed;
      collaborative_evaluation_with_ / Collaborative evaluation failed
    - Creative Thinker: idea_generation / Creative process failed;
      creative_collaboration_with_ / Creative collaboration failed
    - Implementer: implementation_planning / Implementation planning failed;
      implementation_collaboration_with_ / Implementation collaboration failed
    - Researcher: research_investigation / Research process failed;
      research_collaboration_with_ / Research collaboration failed
    - Strategist: strategic_analysis / Strategic analysis failed;
      collaboration_with_ / Strategic collaboration failed
    - Synthesizer: concept_synthesis / Synthesis process failed;
      collaborative_synthesis_with_ / Collaborative synthesis failed *)

(** The body of a [try:] block, run on the agent [self]. *)
Definition run_body (self : AgentRef)
  (body : base_agent.BaseAgent -> (nat -> string) -> base_agent.Body)
  : M PyVal :=
  fun w =>
    let a := agents w self in
    let b := body (base_agent.obj a) (fun i => clock w (ticks w + i)%nat) in
    (base_agent.outcome b,
     set_ticks (ticks w + base_agent.clock_reads b)
       (set_agents
          (upd self
             (base_agent.set_obj
                (base_agent.set_attrs (base_agent.attrs_after b) (base_agent.obj a)) a)
             (agents w)) w)).

Definition update_state (self : AgentRef) (new_state : list (string * PyVal))
  : M unit :=
  fun w => on_agent self (base_agent.update_state (state_attrs w) new_state) w.

(** The exception that the [except] clause of [process] and [collaborate]
    raises for the error [cause] it caught:
    [Exception(f"PREFIX: {str(e)}")], with the error as its context. *)
Definition failure (prefix : string) (cause : PyExc) : PyExc :=
  MkExc "Exception" (prefix +:+ ": " +:+ str cause) (Some cause).

(** The [except Exception as e:] clause of both methods. *)
Definition failed (self : AgentRef) (factor : Q) (prefix : string) (e : PyExc)
  : M PyVal :=
  on_agent self (base_agent.imul_confidence factor e) ;;;
  raise (failure prefix e).

Definition process (self : AgentRef) (input_data : PyVal) : M PyVal :=
  cls <- get_class self ;;
  update_state self [("current_task", VStr (base_agent.process_task cls))] ;;;
  try_except
    (run_body self (fun me => base_agent.process_try cls me input_data))
    (failed self (8 # 10) (base_agent.process_failed cls)).

Definition collaborate (self other_agent : AgentRef) (context : PyVal)
  : M PyVal :=
  cls <- get_class self ;;
  other <- get_agent other_agent ;;
  update_state self
    [("current_task",
      VStr (base_agent.collaborate_task cls
              +:+ base_agent.name (base_agent.personality other)))] ;;;
  try_except
    (other_result <- process other_agent context ;;
     other <- get_agent other_agent ;;
     run_body self
       (fun me =>
          base_agent.collaborate_try cls me (base_agent.personality other)
            other_result context))
    (failed self (9 # 10) (base_agent.collaborate_failed cls)).

(** ** [workflow/base_node.py]: the methods that reach other objects *)

(** [BaseWorkflowNode.connect_agent] *)
Definition connect_agent (self : NodeRef) (agent : AgentRef) : M unit :=
  a <- get_agent agent ;;
  n <- get_node self ;;
  let key := lower (base_agent.name (base_agent.personality a)) in
  if bool_decide (key ∈ base_node.required_agents (base_node.config n)) then
    put_node self
      (base_node.set_participating_agents
         (<[key := agent]> (base_node.participating_agents n)) n)
  else ret tt.

(** [BaseWorkflowNode.add_next_node] *)
Definition add_next_node (self node : NodeRef) : M unit :=
  s <- get_node self ;;
  put_node self (base_node.set_next_nodes (base_node.next_nodes s ++ [node]) s) ;;;
  n <- get_node node ;;
  put_node node
    (base_node.set_previous_nodes (base_node.previous_nodes n ++ [self]) n).

(** [repr] of a set of strings, as the f-string of [validate_readiness]
    prints it.  Python lists the elements in hash order and escapes quotes;
    the model lists them in the order of [elements] and does not escape. *)
Definition repr_str (s : string) : string := "'" +:+ s +:+ "'".

Fixpoint join (sep : string) (l : list string) : string :=
  match l with
  | [] => EmptyString
  | [x] => x
  | x :: rest => x +:+ sep +:+ join sep rest
  end.

Definition repr_set (X : gset string) : string :=
  "{" +:+ join ", " (repr_str <$> elements X) +:+ "}".

(** The loop over [self.previous_nodes]: false at the first predecessor
    whose [completed] flag is not set. *)
Fixpoint previous_completed (prev : list NodeRef) : M bool :=
  match prev with
  | [] => ret true
  | prev_node :: rest =>
      p <- get_node prev_node ;;
      if negb (base_node.completed (base_node.state p)) then ret false
      else previous_completed rest
  end.

Definition missing_required_agents (missing_agents : gset string) : PyExc :=
  MkExc "ValueError"
    ("Missing required agents: " +:+ repr_set missing_agents) None.

(** [BaseWorkflowNode.validate_readiness] *)
Definition validate_readiness (self : NodeRef) : M bool :=
  n <- get_node self ;;
  let missing_agents : gset string :=
    list_to_set (base_node.required_agents (base_node.config n))
      ∖ dom (base_node.participating_agents n) in
  if bool_decide (missing_agents ≠ ∅) then
    raise (missing_required_agents missing_agents)
  else previous_completed (base_node.previous_nodes n).

Definition start (self : NodeRef) : M unit :=
  on_node self (fun n => (Return tt, base_node.start n)).

Definition complete (self : NodeRef) (results : gmap string PyVal) : M unit :=
  on_node self (fun n => (Return tt, base_node.complete results n)).

Definition handle_error (self : NodeRef) (error : PyExc) : M unit :=
  on_node self (base_node.handle_error error).

(** ** [agents/analyst_agent.py] *)

Module analyst_agent.
Import base_agent.
Local Open Scope outcome_scope.

Definition personality : AgentPersonality :=
  {| name := "Analyst";
     traits := [("analytical", 95 # 100); ("detail_oriented", 9 # 10);
                ("systematic", 85 # 100); ("objective", 9 # 10);
                ("methodical", 88 # 100)];
     expertise := ["data analysis"; "pattern recognition";
                   "statistical inference"; "trend identification";
                   "quantitative methods"];
     description :=
       "Data-driven analyst focused on pattern recognition and detailed analysis" |}.

(** [self.analysis_history = []] and [self.current_analysis = None]. *)
Definition own_attrs : gmap string PyVal :=
  <["analysis_history" := VList []]> (<["current_analysis" := VNone]> ∅).

Definition _validate_data (data : PyVal) : PyVal := data.
Definition _clean_data (data : PyVal) : PyVal := data.
Definition _structure_data (data : PyVal) : PyVal := VDict [("data", data)].

Definition _prepare_data (input_data : PyVal) : Outcome PyVal :=
  stage "Data preparation failed"
    (let validated_data := _validate_data input_data in
     let cleaned_data := _clean_data validated_data in
     let structured_data := _structure_data cleaned_data in
     Return structured_data).

Definition _perform_statistical_analysis (data : PyVal) : Outcome PyVal :=
  stage "Statistical analysis failed"
    (Return (VDict [("basic_statistics", VDict [("stats", impl)]);
                    ("advanced_statistics", VDict [("advanced_stats", impl)]);
                    ("correlations", VDict [("correlations", impl)])])).

Definition _identify_patterns (data : PyVal) : Outcome PyVal :=
  stage "Pattern identification failed"
    (let temporal_patterns := [VDict [("pattern", impl)]] in
     let structural_patterns := [VDict [("pattern", impl)]] in
     let behavioral_patterns := [VDict [("pattern", impl)]] in
     Return (VList (temporal_patterns ++ structural_patterns
                      ++ behavioral_patterns))).

Definition _analyze_trends (data : PyVal) : Outcome PyVal :=
  stage "Trend analysis failed"
    (let trends := VList [VDict [("trend", impl)]] in
     let classified_trends := VDict [("classifications", VList [])] in
     let projections := VDict [("projections", impl)] in
     Return (VDict [("identified_trends", trends);
                    ("trend_classification", classified_trends);
                    ("trend_projections", projections)])).

Definition _generate_insights
  (statistical_analysis pattern_analysis trend_analysis : PyVal)
  : Outcome PyVal :=
  stage "Insight generation failed"
    (let statistical_insights := [VDict [("insight", impl)]] in
     let pattern_insights := [VDict [("insight", impl)]] in
     let trend_insights := [VDict [("insight", impl)]] in
     let cross_insights := [VDict [("insight", impl)]] in
     Return (VList (statistical_insights ++ pattern_insights
                      ++ trend_insights ++ cross_insights))).

Definition _create_recommendations (insights : PyVal) : Outcome PyVal :=
  Return (VList [VDict [("recommendation", impl)]]).

Definition _summarize_data (data : PyVal) : PyVal :=
  VDict [("summary", impl)].

Definition _document_methodology : PyVal :=
  VDict [("methods", VList [VStr "statistical_analysis";
                            VStr "pattern_recognition"; VStr "trend_analysis"]);
         ("tools", VList [VStr "numpy"; VStr "custom_analytics"]);
         ("validation_approach", VStr "cross_validation")].

Definition analysis_history (self : BaseAgent) : list PyVal :=
  match attrs self !! "analysis_history" with
  | Some (VList l) => l
  | _ => []
  end.

Definition current_analysis (self : BaseAgent) : PyVal :=
  default VNone (attrs self !! "current_analysis").

(** The [try:] block of [AnalystAgent.process]. *)
Definition process_try (self : BaseAgent) (input_data : PyVal)
  (now : nat -> string) : Body :=
  let r :=
    prepared_data <~ _prepare_data input_data ;;
    statistical_analysis <~ _perform_statistical_analysis prepared_data ;;
    pattern_analysis <~ _identify_patterns prepared_data ;;
    trend_analysis <~ _analyze_trends prepared_data ;;
    insights <~ _generate_insights statistical_analysis pattern_analysis
                  trend_analysis ;;
    recommendations <~ _create_recommendations insights ;;
    Return (VDict [("timestamp", VStr (now 0%nat));
                   ("data_summary", _summarize_data prepared_data);
                   ("statistical_analysis", statistical_analysis);
                   ("pattern_analysis", pattern_analysis);
                   ("trend_analysis", trend_analysis);
                   ("insights", insights);
                   ("recommendations", recommendations);
                   ("confidence_score", confidence (state self));
                   ("methodology", _document_methodology)]) in
  match r with
  | Return analysis_result =>
      {| outcome := Return analysis_result;
         attrs_after :=
           <["current_analysis" := analysis_result]>
             (<["analysis_history" :=
                  VList (analysis_history self ++ [analysis_result])]>
                (attrs self));
         clock_reads := 1 |}
  | Raise e => {| outcome := Raise e; attrs_after := attrs self; clock_reads := 0 |}
  end.

Definition _validate_external_analysis (analysis : PyVal) : Outcome PyVal :=
  Return analysis.

Definition _combine_analyses (internal_analysis external_analysis : PyVal)
  : Outcome PyVal :=
  Return (VDict [("combined", impl)]).

Definition _generate_collaborative_insights (combined_analysis : PyVal)
  (collaborator_personality : AgentPersonality) : Outcome PyVal :=
  Return (VList [VDict [("insight", impl)]]).

(** The [try:] block of [AnalystAgent.collaborate], after
    [other_agent.process(context)] has returned [other_analysis]. *)
Definition collaborate_try (self : BaseAgent) (other : AgentPersonality)
  (other_analysis context : PyVal) (now : nat -> string) : Body :=
  let r :=
    validated_analysis <~ _validate_external_analysis other_analysis ;;
    combined_analysis <~ _combine_analyses (current_analysis self)
                           validated_analysis ;;
    collaborative_insights <~ _generate_collaborative_insights
                                combined_analysis other ;;
    Return (VDict [("combined_analysis", combined_analysis);
                   ("collaborative_insights", collaborative_insights);
                   ("confidence_score", confidence (state self));
                   ("collaboration_metadata",
                    VDict [("partner", VStr (name other));
                           ("timestamp", VStr (now 0%nat))])]) in
  {| outcome := r; attrs_after := attrs self;
     clock_reads := if is_raise r then 0 else 1 |}.

Definition AnalystAgent : AgentClass :=
  {| cls_personality := personality;
     cls_attrs := own_attrs;
     process_task := "data_analysis";
     base_agent.process_try := process_try;
     process_failed := "Analysis failed";
     collaborate_task := "collaboration_with_";
     base_agent.collaborate_try := collaborate_try;
     collaborate_failed := "Collaborative analysis failed" |}.

End analyst_agent.

(** ** [agents/strategist_agent.py] *)

Module strategist_agent.
Import base_agent.
Local Open Scope outcome_scope.

Definition personality : AgentPersonality :=
  {| name := "Strategist";
     traits := [("analytical", 8 # 10); ("strategic", 9 # 10);
                ("creative", 6 # 10); ("leadership", 85 # 100);
                ("risk_aware", 75 # 100)];
     expertise := ["strategic planning"; "goal setting"; "risk assessment";
                   "trend analysis"; "decision making"];
     description :=
       "Strategic thinker focused on long-term planning and direction" |}.

(** [self.strategic_plans = {}] and [self.risk_assessments = {}]. *)
Definition own_attrs : gmap string PyVal :=
  <["strategic_plans" := VDict []]> (<["risk_assessments" := VDict []]> ∅).

Definition strategic_plans (self : BaseAgent) : list (string * PyVal) :=
  match attrs self !! "strategic_plans" with
  | Some (VDict d) => d
  | _ => []
  end.

Definition _analyze_context (self : BaseAgent) (input_data : PyVal)
  : Outcome PyVal :=
  knowledge <~ access_knowledge_base self "strategic_context" ;;
  Return (VDict [("problem_scope", VDict [("scope", impl)]);
                 ("environmental_factors", VList [VDict [("factor", impl)]]);
                 ("stakeholder_analysis", VList [VDict [("stakeholder", impl)]]);
                 ("relevant_knowledge", knowledge)]).

Definition _generate_strategic_options (context_analysis : PyVal)
  : list PyVal :=
  let approaches := ["innovative"; "conservative"; "balanced"] in
  (fun approach =>
     VDict [("approach", VStr approach);
            ("description", impl);
            ("potential_outcomes", VList [VDict [("outcome", impl)]]);
            ("resource_requirements", VDict [("resources", impl)]);
            ("timeline", VList [VDict [("phase", impl)]])]) <$> approaches.

(** [option["approach"]], a key of the assessment dict. *)
Definition approach_of (option : PyVal) : Outcome string :=
  match getitem option "approach" with
  | Some (VStr a) => Return a
  | _ => Raise (MkExc "KeyError" "'approach'" None)
  end.

Definition _calculate_risk_score (risk : PyVal) : PyVal := VFloat (5 # 10).

Fixpoint _assess_risks_loop (strategic_options : list PyVal)
  (risk_assessment : list (string * PyVal)) : Outcome PyVal :=
  match strategic_options with
  | [] => Return (VDict risk_assessment)
  | option :: rest =>
      let operational_risks := [[("risk", impl)]] in
      let strategic_risks := [[("risk", impl)]] in
      let external_risks := [[("risk", impl)]] in
      let risks := operational_risks ++ strategic_risks ++ external_risks in
      let risks :=
        (fun risk => VDict (dict_set risk "score" (_calculate_risk_score (VDict risk))))
          <$> risks in
      a <~ approach_of option ;;
      _assess_risks_loop rest (dict_set risk_assessment a (VList risks))
  end.

Definition _assess_risks (strategic_options : list PyVal) : Outcome PyVal :=
  _assess_risks_loop strategic_options [].

Definition _formulate_strategic_plan (strategic_options : list PyVal)
  (risk_assessment : PyVal) : Outcome PyVal :=
  match strategic_options with
  | [] => Raise (MkExc "IndexError" "list index out of range" None)
  | selected_option :: _ =>
      a <~ approach_of selected_option ;;
      Return (VDict [("selected_approach", VStr a);
                     ("rationale", impl);
                     ("implementation_steps", VList [VDict [("step", impl)]]);
                     ("success_metrics", VList [VDict [("metric", impl)]]);
                     ("contingency_plans", VList [VDict [("plan", impl)]]);
                     ("resource_allocation", VDict [("allocation", impl)])])
  end.

(** The [try:] block of [StrategistAgent.process]. *)
Definition process_try (self : BaseAgent) (input_data : PyVal)
  (now : nat -> string) : Body :=
  let r :=
    context_analysis <~ _analyze_context self input_data ;;
    let strategic_options := _generate_strategic_options context_analysis in
    risk_assessment <~ _assess_risks strategic_options ;;
    strategic_plan <~ _formulate_strategic_plan strategic_options
                        risk_assessment ;;
    let plan_id := pretty (length (strategic_plans self) + 1)%nat in
    Return
      (plan_id, strategic_plan,
       VDict [("plan_id", VStr plan_id);
              ("context_analysis", context_analysis);
              ("strategic_options", VList strategic_options);
              ("risk_assessment", risk_assessment);
              ("strategic_plan", strategic_plan);
              ("confidence", confidence (state self))]) in
  match r with
  | Return (plan_id, strategic_plan, result) =>
      {| outcome := Return result;
         attrs_after :=
           <["strategic_plans" :=
               VDict (dict_set (strategic_plans self) plan_id strategic_plan)]>
             (attrs self);
         clock_reads := 0 |}
  | Raise e => {| outcome := Raise e; attrs_after := attrs self; clock_reads := 0 |}
  end.

Definition _integrate_perspectives (context other_perspective : PyVal)
  : Outcome PyVal :=
  Return (VDict [("integration", impl)]).

Definition _update_strategic_plans (integrated_analysis : PyVal)
  : Outcome unit :=
  Return tt.

(** The [try:] block of [StrategistAgent.collaborate], after
    [other_agent.process(context)] has returned [other_perspective]. *)
Definition collaborate_try (self : BaseAgent) (other : AgentPersonality)
  (other_perspective context : PyVal) (now : nat -> string) : Body :=
  let r :=
    integrated_analysis <~ _integrate_perspectives context other_perspective ;;
    _ <~ _update_strategic_plans integrated_analysis ;;
    Return (VDict [("integrated_analysis", integrated_analysis);
                   ("collaboration_partner", VStr (name other));
                   ("updated_plans", VDict (strategic_plans self))]) in
  {| outcome := r; attrs_after := attrs self; clock_reads := 0 |}.

Definition StrategistAgent : AgentClass :=
  {| cls_personality := personality;
     cls_attrs := own_attrs;
     process_task := "strategic_analysis";
     base_agent.process_try := process_try;
     process_failed := "Strategic analysis failed";
     collaborate_task := "collaboration_with_";
     base_agent.collaborate_try := collaborate_try;
     collaborate_failed := "Strategic collaboration failed" |}.

End strategist_agent.

(** ** Calls from outside and the stores they reach *)

(** A call of a public method by client code. *)
Inductive Call : Type :=
| call_update_state (self : AgentRef) (new_state : list (string * PyVal))
| call_process (self : AgentRef) (input_data : PyVal)
| call_collaborate (self other_agent : AgentRef) (context : PyVal)
| call_connect_agent (self : NodeRef) (agent : AgentRef)
| call_add_next_node (self node : NodeRef)
| call_validate_readiness (self : NodeRef)
| call_start (self : NodeRef)
| call_complete (self : NodeRef) (results : gmap string PyVal)
| call_handle_error (self : NodeRef) (error : PyExc).

(** The value a call returns is dropped; what remains is whether it
    raised. *)
Definition void {A} (m : M A) : M unit := _ <- m ;; ret tt.

Definition exec (c : Call) : M unit :=
  match c with
  | call_update_state self new_state => update_state self new_state
  | call_process self input_data => void (process self input_data)
  | call_collaborate self other context => void (collaborate self other context)
  | call_connect_agent self agent => connect_agent self agent
  | call_add_next_node self node => add_next_node self node
  | call_validate_readiness self => void (validate_readiness self)
  | call_start self => start self
  | call_complete self results => complete self results
  | call_handle_error self error => handle_error self error
  end.

(** A client that makes the calls one after the other and catches what each
    raises. *)
Fixpoint run (calls : list Call) (w : World) : list (Outcome unit) * World :=
  match calls with
  | [] => ([], w)
  | c :: rest =>
      let '(o, w1) := exec c w in
      let '(os, w2) := run rest w1 in
      (o :: os, w2)
  end.

Definition is_agent_call (c : Call) : bool :=
  match c with
  | call_process _ _ | call_collaborate _ _ _ => true
  | _ => false
  end.

(** A store of freshly constructed objects: [classes r] is the class of the
    agent [r] and [configs r] the configuration of the node [r]. *)
Definition fresh (classes : AgentRef -> base_agent.AgentClass)
  (configs : NodeRef -> base_node.NodeConfig) (time : nat -> string)
  (inherited : string -> bool) : World :=
  {| agents := fun r => base_agent.Agent_new (classes r);
     nodes := fun r => base_node.BaseWorkflowNode_new (configs r);
     clock := time; ticks := 0; state_attrs := inherited |}.

(** The stores that calls of public methods reach from fresh objects. *)
Inductive reachable : World -> Prop :=
| reachable_fresh classes configs time inherited :
    reachable (fresh classes configs time inherited)
| reachable_call w c :
    reachable w -> reachable (snd (exec c w)).

Definition confidence_of (w : World) (r : AgentRef) : PyVal :=
  base_agent.confidence (base_agent.state (base_agent.obj (agents w r))).

Definition current_task_of (w : World) (r : AgentRef) : PyVal :=
  base_agent.current_task (base_agent.state (base_agent.obj (agents w r))).

Definition node_state (w : World) (r : NodeRef) : base_node.NodeState :=
  base_node.state (nodes w r).

(** The invariant of [NodeState]: [completed] implies not [active]. *)
Definition NodeState_inv (s : base_node.NodeState) : Prop :=
  base_node.completed s = true -> base_node.active s = false.

(** ** Sample stores *)

Definition sample_config (required : list string) (max_iter : Z)
  : base_node.NodeConfig :=
  {| base_node.name := "analysis"; base_node.description := "Analysis stage";
     base_node.required_agents := required;
     base_node.max_iterations := max_iter;
     base_node.timeout_seconds := 60; base_node.auto_proceed := true |}.

Definition sample_time (i : nat) : string := "t" +:+ pretty i.

(** Some of the names that a model object inherits. *)
Definition sample_attrs (key : string) : bool :=
  bool_decide (key ∈ ["Config"; "__fields__"; "__dict__"; "__class__"]).

(** Agent 0 is a Strategist, every other agent an Analyst; node 0 requires
    the agent names [analyst] and [Strategist], every other node [analyst]
    alone; every node allows three iterations. *)
Definition sample_world : World :=
  fresh (fun r => match r with
                  | O => strategist_agent.StrategistAgent
                  | _ => analyst_agent.AnalystAgent
                  end)
        (fun r => match r with
                  | O => sample_config ["analyst"; "Strategist"] 3
                  | _ => sample_config ["analyst"] 3
                  end)
        sample_time sample_attrs.

(** Node 0 precedes node 1, the Analyst 1 is connected to node 1, and node
    0 has run to completion. *)
Definition ready_world : World :=
  snd (run [call_add_next_node 0 1; call_connect_agent 1 1; call_start 0;
            call_complete 0 ∅] sample_world).

(** ** Relations between the store before and after a method *)

(** [m] takes every store to one that is [R]-related to it. *)
Definition preserves {A} (R : World -> World -> Prop) (m : M A) : Prop :=
  ∀ w, R w (snd (m w)).

(** The steps that [process] and [collaborate] make on the agent [self]. *)
Definition agent_steps (R : World -> World -> Prop) (self : AgentRef) : Prop :=
  (∀ v, preserves R (update_state self [("current_task", v)])) ∧
  (∀ body, preserves R (run_body self body)) ∧
  (∀ e, preserves R (on_agent self (base_agent.imul_confidence (8 # 10) e))) ∧
  (∀ e, preserves R (on_agent self (base_agent.imul_confidence (9 # 10) e))).

(** Methods of an agent leave the nodes as they are. *)
Definition same_nodes (w w' : World) : Prop := nodes w' = nodes w.

(** A node that was started, failed once and then completed. *)
Definition completed_world : World :=
  snd (exec (call_complete 0 ∅)
         (snd (exec (call_handle_error 0 (MkExc "Exception" "boom" None))
                 (snd (exec (call_start 0) sample_world))))).

(** The outcome of the [k]-th call of [handle_error] on a node that allows
    [m] iterations and had no error before the first call (counting from
    0). *)
Definition handle_error_outcome_at (m : Z) (k : nat) : Outcome unit :=
  if (m <=? Z.of_nat (S k))%Z
  then Raise (base_node.max_iterations_reached m)
  else Return tt.

(** The key under which [connect_agent] files the agent [agent]. *)
Definition agent_key (w : World) (agent : AgentRef) : string :=
  lower (base_agent.name (base_agent.personality (base_agent.obj (agents w agent)))).

Definition bound_agents (w : World) (self : NodeRef) : gmap string AgentRef :=
  base_node.participating_agents (nodes w self).


Definition state_of (w : World) (r : AgentRef) : base_agent.AgentState :=
  base_agent.state (base_agent.obj (agents w r)).

(** The agent object once [update_state] has set its task label. *)
Definition with_task (v : PyVal) (a : base_agent.BaseAgent)
  : base_agent.BaseAgent :=
  base_agent.set_state
    {| base_agent.current_task := v;
       base_agent.memory := base_agent.memory (base_agent.state a);
       base_agent.confidence := base_agent.confidence (base_agent.state a);
       base_agent.context := base_agent.context (base_agent.state a) |} a.

(** The agent [r] is the same object before and after. *)
Definition same_agent (r : AgentRef) (w w' : World) : Prop :=
  agents w' r = agents w r.

(** Every agent keeps its class, its personality and its knowledge base. *)
Definition same_classes (w w' : World) : Prop :=
  ∀ r, base_agent.class_of (agents w' r) = base_agent.class_of (agents w r) ∧
       base_agent.personality (base_agent.obj (agents w' r))
       = base_agent.personality (base_agent.obj (agents w r)) ∧
       base_agent.knowledge_base (base_agent.obj (agents w' r))
       = base_agent.knowledge_base (base_agent.obj (agents w r)).

(** No confidence that is a non-negative float has grown, and each is still
    a non-negative float. *)
Definition no_increase (w w' : World) : Prop :=
  ∀ (r : AgentRef) (q : Q),
    confidence_of w r = VFloat q -> (0 <= q)%Q ->
    ∃ q', confidence_of w' r = VFloat q' ∧ (0 <= q')%Q ∧ (q' <= q)%Q.

(** The number of outcomes that are errors of class [Exception]. *)
Definition count_failed {A} (outs : list (Outcome A)) : nat :=
  length (filter (λ o, raised_Exception o = true) outs).

(** The payload holds collaboration metadata that records the partner's
    name and a timestamp. *)
Definition records_partner_and_timestamp (payload : PyVal) (partner : string)
  : Prop :=
  ∃ (md : PyVal) (ts : string),
    getitem payload "collaboration_metadata" = Some md ∧
    getitem md "partner" = Some (VStr partner) ∧
    getitem md "timestamp" = Some (VStr ts).

Definition name_of (w : World) (r : AgentRef) : string :=
  base_agent.name (base_agent.personality (base_agent.obj (agents w r))).

(** ** [agents/challenger_agent.py] *)

Module challenger_agent.
Import base_agent.
Local Open Scope outcome_scope.

Definition personality : AgentPersonality :=
  {| name := "Challenger";
     traits := [("critical", 95 # 100); ("analytical", 9 # 10);
                ("objective", 88 # 100); ("skeptical", 85 # 100);
                ("constructive", 8 # 10); ("thorough", 87 # 100)];
     expertise := ["critical analysis"; "assumption testing";
                   "risk assessment"; "logical evaluation";
                   "argument analysis"; "problem identification"];
     description :=
       "Critical evaluator focused on identifying and addressing potential flaws" |}.

Definition str_list (l : list string) : PyVal := VList (VStr <$> l).

Definition evaluation_frameworks : PyVal :=
  VDict
    [("logical",
      VDict [("fallacies",
              str_list ["circular_reasoning"; "false_dichotomy"; "ad_hominem"]);
             ("validity_tests",
              str_list ["consistency"; "completeness"; "soundness"])]);
     ("practical",
      VDict [("feasibility",
              str_list ["resource_constraints"; "technical_limitations";
                        "time_constraints"]);
             ("scalability",
              str_list ["load_handling"; "growth_adaptation"; "resource_scaling"])]);
     ("strategic",
      VDict [("alignment",
              str_list ["goal_alignment"; "stakeholder_interests";
                        "long_term_viability"]);
             ("competition",
              str_list ["market_forces"; "competitive_advantage";
                        "entry_barriers"])])].

(** [self.challenge_history = []] and [self.evaluation_frameworks = {...}]. *)
Definition own_attrs : gmap string PyVal :=
  <["challenge_history" := VList []]>
    (<["evaluation_frameworks" := evaluation_frameworks]> ∅).

Definition challenge_history (self : BaseAgent) : list PyVal :=
  match attrs self !! "challenge_history" with
  | Some (VList l) => l
  | _ => []
  end.

(** [Challenge(target, challenge_type, description)]: the attributes its
    [__init__] sets; [timestamp] is the reading of [datetime.now()]. *)
Definition Challenge (target : string) (challenge_type description : PyVal)
  (timestamp : string) : PyVal :=
  VDict [("target", VStr target); ("challenge_type", challenge_type);
         ("description", description); ("evidence", VList []);
         ("severity", VFloat 0); ("impact_areas", VList []);
         ("proposed_solutions", VList []); ("timestamp", VStr timestamp);
         ("status", VStr "open")].

Definition _analyze_assumptions (input_data : PyVal) : Outcome PyVal :=
  stage "Assumption analysis failed"
    (let explicit := [VDict [("assumption", impl)]] in
     let implicit := [VDict [("assumption", impl)]] in
     let validated := explicit ++ implicit in
     Return (VList validated)).

Definition _identify_issues (input_data assumptions : PyVal)
  : Outcome (list PyVal) :=
  stage "Issue identification failed"
    (let logical_issues := [VDict [("issue", impl)]] in
     let practical_issues := [VDict [("issue", impl)]] in
     let strategic_issues := [VDict [("issue", impl)]] in
     Return (logical_issues ++ practical_issues ++ strategic_issues)).

(** The dict that [_generate_challenges] builds for one issue. *)
Definition challenge_of (issue : PyVal) : list (string * PyVal) :=
  let challenge := VDict [("challenge", impl)] in
  let evidence := VList [VDict [("evidence", impl)]] in
  let critique := VDict [("critique", impl)] in
  [("challenge", challenge); ("evidence", evidence); ("critique", critique);
   ("severity", VFloat (5 # 10)); ("confidence", VFloat (5 # 10))].

Definition _generate_challenges (issues : list PyVal)
  : Outcome (list (list (string * PyVal))) :=
  stage "Challenge generation failed" (Return (challenge_of <$> issues)).

Definition _evaluate_impact (challenges : list (list (string * PyVal)))
  : Outcome PyVal :=
  stage "Impact evaluation failed"
    (Return (VDict [("severity_assessment", VDict [("severity", impl)]);
                    ("implications", VList [VDict [("implication", impl)]]);
                    ("risks", VList [VDict [("risk", impl)]]);
                    ("overall_impact_score", VFloat (5 # 10))])).

Definition _propose_solutions (challenges : list (list (string * PyVal)))
  (impact : PyVal) : Outcome PyVal :=
  Return (VList [VDict [("solution", impl)]]).

Definition _create_evaluation_report
  (assumptions : PyVal) (challenges : list (list (string * PyVal)))
  (impact solutions : PyVal) : Outcome PyVal :=
  Return (VDict [("report", impl)]).

(** The loop that stores the challenges:
<<
    for challenge in challenges:
        self.challenge_history.append(Challenge(
            str(input_data), challenge["type"], challenge["description"]))
>>
    [target] is [str(input_data)]; a missing key raises [KeyError] and
    leaves the challenges appended so far.  [reads] counts the readings of
    the clock. *)
Fixpoint store_challenges (target : string)
  (challenges : list (list (string * PyVal))) (history : list PyVal)
  (now : nat -> string) (reads : nat) : Outcome unit * list PyVal * nat :=
  match challenges with
  | [] => (Return tt, history, reads)
  | challenge :: rest =>
      match dict_get challenge "type" with
      | None => (Raise (MkExc "KeyError" "'type'" None), history, reads)
      | Some challenge_type =>
          match dict_get challenge "description" with
          | None => (Raise (MkExc "KeyError" "'description'" None), history, reads)
          | Some description =>
              store_challenges target rest
                (history ++ [Challenge target challenge_type description (now reads)])
                now (S reads)
          end
      end
  end.

(** The [try:] block of [ChallengerAgent.process]; [py_str] is Python's
    [str] on values. *)
Definition process_try (py_str : PyVal -> string) (self : BaseAgent)
  (input_data : PyVal) (now : nat -> string) : Body :=
  let r :=
    assumptions <~ _analyze_assumptions input_data ;;
    issues <~ _identify_issues input_data assumptions ;;
    challenges <~ _generate_challenges issues ;;
    impact <~ _evaluate_impact challenges ;;
    solutions <~ _propose_solutions challenges impact ;;
    report <~ _create_evaluation_report assumptions challenges impact solutions ;;
    Return
      (challenges,
       VDict [("timestamp", VStr (now 0%nat));
              ("assumptions", assumptions);
              ("issues", VList issues);
              ("challenges", VList (VDict <$> challenges));
              ("impact", impact);
              ("solutions", solutions);
              ("report", report);
              ("confidence_score", confidence (state self))]) in
  match r with
  | Return (challenges, result) =>
      let '(o, history, reads) :=
        store_challenges (py_str input_data) challenges
          (challenge_history self) now 1 in
      {| outcome := _ <~ o ;; Return result;
         attrs_after := <["challenge_history" := VList history]> (attrs self);
         clock_reads := reads |}
  | Raise e => {| outcome := Raise e; attrs_after := attrs self; clock_reads := 0 |}
  end.

Definition _challenge_assumptions (context other_perspective : PyVal)
  : Outcome PyVal :=
  Return (VDict [("challenged", impl)]).

Definition _cross_evaluate_findings (findings : PyVal)
  (other_personality : AgentPersonality) : Outcome PyVal :=
  Return (VDict [("evaluation", impl)]).

Definition _generate_collaborative_critique
  (evaluation other_perspective : PyVal) : Outcome PyVal :=
  Return (VDict [("critique", impl)]).

(** The [try:] block of [ChallengerAgent.collaborate], after
    [other_agent.process(context)] has returned [other_perspective]. *)
Definition collaborate_try (self : BaseAgent) (other : AgentPersonality)
  (other_perspective context : PyVal) (now : nat -> string) : Body :=
  let r :=
    challenged_assumptions <~ _challenge_assumptions context other_perspective ;;
    cross_evaluation <~ _cross_evaluate_findings challenged_assumptions other ;;
    collaborative_critique <~ _generate_collaborative_critique
                                cross_evaluation other_perspective ;;
    Return (VDict [("challenged_assumptions", challenged_assumptions);
                   ("cross_evaluation", cross_evaluation);
                   ("collaborative_critique", collaborative_critique);
                   ("collaboration_metadata",
                    VDict [("partner", VStr (name other));
                           ("timestamp", VStr (now 0%nat))])]) in
  {| outcome := r; attrs_after := attrs self;
     clock_reads := if is_raise r then 0 else 1 |}.

Definition ChallengerAgent (py_str : PyVal -> string) : AgentClass :=
  {| cls_personality := personality;
     cls_attrs := own_attrs;
     process_task := "critical_evaluation";
     base_agent.process_try := process_try py_str;
     process_failed := "Critical evaluation failed";
     collaborate_task := "collaborative_evaluation_with_";
     base_agent.collaborate_try := collaborate_try;
     collaborate_failed := "Collaborative evaluation failed" |}.

End challenger_agent.

(** The next/previous lists of the nodes mirror each other: [y] occurs in
    [x.next_nodes] as often as [x] occurs in [y.previous_nodes]. *)
Definition edges_mirrored (w : World) : Prop :=
  ∀ x y : NodeRef,
    count_occ Nat.eq_dec (base_node.next_nodes (nodes w x)) y
    = count_occ Nat.eq_dec (base_node.previous_nodes (nodes w y)) x.

(** Every name of [required_agents] is a key of the bound agents. *)
Definition all_bound (w : World) (self : NodeRef) : Prop :=
  ∀ r, r ∈ base_node.required_agents (base_node.config (nodes w self)) ->
       is_Some (bound_agents w self !! r).

(** A store with an edge from node 0 to node 1 and a self-edge on node 2,
    all three started. *)
Definition edged_world : World :=
  snd (run [call_add_next_node 0 1; call_add_next_node 2 2; call_start 0;
            call_start 1; call_start 2] sample_world).


(** A store in which agent 3 is a Challenger (with a constant for Python's
    [str]) and the Strategist 0 has a knowledge base that answers every
    query with the query itself. *)
Definition echo_knowledge_base : base_agent.KnowledgeBase :=
  {| base_agent.query := fun q => Return (VStr q) |}.

Definition equipped_world : World :=
  set_agents
    (upd 3 (base_agent.Agent_new (challenger_agent.ChallengerAgent (fun _ => "input")))
       (upd 0 (base_agent.set_obj
                 (base_agent.set_knowledge_base (Some echo_knowledge_base)
                    (base_agent.obj (agents sample_world 0)))
                 (agents sample_world 0))
          (agents sample_world)))
    sample_world.


(** A knowledge base whose query is cancelled while it is awaited: it
    raises [asyncio.CancelledError()], whose [str] is empty.  In
    [cancelled_world] the Strategist 0 has this knowledge base. *)
Definition CancelledError : PyExc := MkExc "CancelledError" EmptyString None.

Definition cancelled_knowledge_base : base_agent.KnowledgeBase :=
  {| base_agent.query := fun _ => Raise CancelledError |}.

Definition cancelled_world : World :=
  set_agents
    (upd 0 (base_agent.set_obj
              (base_agent.set_knowledge_base (Some cancelled_knowledge_base)
                 (base_agent.obj (agents sample_world 0)))
              (agents sample_world 0))
       (agents sample_world))
    sample_world.



(** * Properties *)

(** ** The store *)

Lemma upd_eq {A} (r : nat) (x : A) (h : nat -> A) : upd r x h r = x.
Proof. unfold upd. by rewrite Nat.eqb_refl. Qed.

Lemma upd_ne {A} (r r' : nat) (x : A) (h : nat -> A) :
  r' ≠ r -> upd r x h r' = h r'.
Proof. intros Hne. unfold upd. by apply Nat.eqb_neq in Hne as ->. Qed.

Lemma upd_cases {A} (r r' : nat) (x : A) (h : nat -> A) :
  (r' = r ∧ upd r x h r' = x) ∨ (r' ≠ r ∧ upd r x h r' = h r').
Proof.
  destruct (decide (r' = r)) as [->|Hne].
  - left. by rewrite upd_eq.
  - right. by rewrite upd_ne.
Qed.

(** ** Workflow nodes: [start], [complete], [handle_error] *)

Section node_state.
Import base_node.

Lemma start_state (n : BaseWorkflowNode) :
  state (base_node.start n)
  = {| active := true; completed := false; iteration := 0; results := ∅;
       errors := [] |}.
Proof. reflexivity. Qed.

Lemma complete_state (r : gmap string PyVal) (n : BaseWorkflowNode) :
  state (base_node.complete r n)
  = {| active := false; completed := true; iteration := iteration (state n);
       results := r; errors := errors (state n) |}.
Proof. reflexivity. Qed.

Lemma handle_error_state (e : PyExc) (n : BaseWorkflowNode) :
  state (snd (base_node.handle_error e n))
  = set_errors (errors (state n) ++ [str e]) (state n).
Proof. unfold base_node.handle_error. by case_match. Qed.

Lemma handle_error_config (e : PyExc) (n : BaseWorkflowNode) :
  config (snd (base_node.handle_error e n)) = config n.
Proof. unfold base_node.handle_error. by case_match. Qed.

Lemma handle_error_outcome (e : PyExc) (n : BaseWorkflowNode) :
  is_raise (fst (base_node.handle_error e n))
  = (max_iterations (config n) <=? Z.of_nat (S (length (errors (state n)))))%Z.
Proof.
  unfold base_node.handle_error. cbn [state set_state set_errors errors config].
  rewrite length_app. cbn [length]. rewrite Nat.add_1_r.
  by case_match.
Qed.

End node_state.

(** C5.  Whatever the node's state was, after [start()] the iteration
    counter is 0, the results map and the error list are empty, the active
    flag is set and the completed flag is cleared. *)
Theorem start_resets (w : World) (self : NodeRef) :
  fst (start self w) = Return tt ∧
  node_state (snd (start self w)) self
  = {| base_node.active := true; base_node.completed := false;
       base_node.iteration := 0; base_node.results := ∅;
       base_node.errors := [] |}.
Proof.
  unfold start, on_node, node_state. cbn. by rewrite upd_eq.
Qed.

(** ** The invariant of [NodeState] *)

Lemma NodeState_inv_new : NodeState_inv base_node.NodeState_new.
Proof. intros H. discriminate H. Qed.

Lemma NodeState_inv_start (n : base_node.BaseWorkflowNode) :
  NodeState_inv (base_node.state (base_node.start n)).
Proof. intros H. discriminate H. Qed.

Lemma NodeState_inv_complete r (n : base_node.BaseWorkflowNode) :
  NodeState_inv (base_node.state (base_node.complete r n)).
Proof. intros _. reflexivity. Qed.

Lemma NodeState_inv_handle_error e (n : base_node.BaseWorkflowNode) :
  NodeState_inv (base_node.state n) ->
  NodeState_inv (base_node.state (snd (base_node.handle_error e n))).
Proof. rewrite handle_error_state. intros H. exact H. Qed.

(** ** Relations that every step of a method keeps *)

Section preserves.
Context (R : World -> World -> Prop).
Context (R_refl : ∀ w, R w w).
Context (R_trans : ∀ w1 w2 w3, R w1 w2 -> R w2 w3 -> R w1 w3).

Lemma preserves_ret {A} (a : A) : preserves R (ret a).
Proof using R_refl. intros w. apply R_refl. Qed.

Lemma preserves_raise {A} (e : PyExc) : preserves R (@raise A e).
Proof using R_refl. intros w. apply R_refl. Qed.

Lemma preserves_get_agent r : preserves R (get_agent r).
Proof using R_refl. intros w. apply R_refl. Qed.

Lemma preserves_get_class r : preserves R (get_class r).
Proof using R_refl. intros w. apply R_refl. Qed.

Lemma preserves_get_node r : preserves R (get_node r).
Proof using R_refl. intros w. apply R_refl. Qed.

Lemma preserves_bind {A B} (m : M A) (f : A -> M B) :
  preserves R m -> (∀ a, preserves R (f a)) -> preserves R (bind m f).
Proof using R_trans.
  intros Hm Hf w. unfold bind. specialize (Hm w).
  destruct (m w) as [[a|e] w1]; cbn in *; [|done].
  eapply R_trans; [exact Hm|apply Hf].
Qed.

Lemma preserves_try_except {A} (m : M A) (h : PyExc -> M A) :
  preserves R m -> (∀ e, preserves R (h e)) -> preserves R (try_except m h).
Proof using R_trans.
  intros Hm Hh w. unfold try_except. specialize (Hm w).
  destruct (m w) as [[a|e] w1]; cbn in *; [done|].
  destruct (is_Exception e); cbn; [|done].
  eapply R_trans; [exact Hm|apply Hh].
Qed.

Lemma preserves_void {A} (m : M A) : preserves R m -> preserves R (void m).
Proof using R_refl R_trans.
  intros Hm. apply preserves_bind; [done|]. intros _. apply preserves_ret.
Qed.

Lemma preserves_process self input_data :
  agent_steps R self -> preserves R (process self input_data).
Proof using R_refl R_trans.
  intros (Hu & Hb & H8 & _). unfold process.
  apply preserves_bind; [apply preserves_get_class|intros cls].
  apply preserves_bind; [apply Hu|intros _].
  apply preserves_try_except; [apply Hb|intros e].
  unfold failed. apply preserves_bind; [apply H8|intros _].
  apply preserves_raise.
Qed.

Lemma preserves_collaborate self other context :
  agent_steps R self -> agent_steps R other ->
  preserves R (collaborate self other context).
Proof using R_refl R_trans.
  intros (Hu & Hb & _ & H9) Hother. unfold collaborate.
  apply preserves_bind; [apply preserves_get_class|intros cls].
  apply preserves_bind; [apply preserves_get_agent|intros o].
  apply preserves_bind; [apply Hu|intros _].
  apply preserves_try_except.
  - apply preserves_bind; [by apply preserves_process|intros r].
    apply preserves_bind; [apply preserves_get_agent|intros o'].
    apply Hb.
  - intros e. unfold failed. apply preserves_bind; [apply H9|intros _].
    apply preserves_raise.
Qed.

End preserves.

Lemma same_nodes_on_agent {A} r f : preserves same_nodes (@on_agent A r f).
Proof. intros w. unfold on_agent. by destruct (f _). Qed.

Lemma same_nodes_agent_steps self : agent_steps same_nodes self.
Proof.
  split; [|split; [|split]]; intros x.
  - intros w. unfold update_state. apply same_nodes_on_agent.
  - by intros w.
  - apply same_nodes_on_agent.
  - apply same_nodes_on_agent.
Qed.

Lemma same_nodes_process self input_data :
  preserves same_nodes (process self input_data).
Proof.
  apply preserves_process; [done|unfold same_nodes; congruence|].
  apply same_nodes_agent_steps.
Qed.

Lemma same_nodes_collaborate self other context :
  preserves same_nodes (collaborate self other context).
Proof.
  apply preserves_collaborate;
    [done|unfold same_nodes; congruence|apply same_nodes_agent_steps..].
Qed.

Lemma same_nodes_void {A} (m : M A) :
  preserves same_nodes m -> preserves same_nodes (void m).
Proof. apply preserves_void; [done|unfold same_nodes; congruence]. Qed.

Lemma same_nodes_validate_readiness self :
  preserves same_nodes (validate_readiness self).
Proof.
  intros w. unfold validate_readiness, bind, get_node, raise.
  case_bool_decide; cbn; [done|].
  induction (base_node.previous_nodes (nodes w self)) as [|p ps IH];
    cbn; [done|].
  unfold bind, get_node, ret. by case_match.
Qed.

(** What a call makes of the state of a node: nothing, or what [start],
    [complete] or [handle_error] make of it. *)
Lemma exec_node_state (c : Call) (w : World) (r : NodeRef) :
  let s := node_state w r in
  let s' := node_state (snd (exec c w)) r in
  s' = s ∨
  s' = base_node.state (base_node.start (nodes w r)) ∨
  (∃ res, s' = base_node.state (base_node.complete res (nodes w r))) ∨
  (∃ e, s' = base_node.state (snd (base_node.handle_error e (nodes w r)))).
Proof.
  cbn zeta. unfold node_state.
  destruct c; cbn [exec].
  - left. unfold update_state. by rewrite (same_nodes_on_agent self _ w).
  - left. by rewrite (same_nodes_void _ (same_nodes_process self input_data) w).
  - left.
    by rewrite (same_nodes_void _ (same_nodes_collaborate self other_agent context) w).
  - left. unfold connect_agent, bind, get_agent, get_node, put_node, ret.
    case_bool_decide; cbn; [|done].
    match goal with
    | |- context [upd ?a ?x ?h ?b] =>
        destruct (upd_cases a b x h) as [[-> ->]|[? ->]]
    end; done.
  - left. unfold add_next_node, bind, get_node, put_node. cbn.
    repeat match goal with
    | |- context [upd ?a ?x ?h ?b] =>
        destruct (upd_cases a b x h) as [[-> ->]|[? ->]]; cbn
    end; done.
  - left. by rewrite (same_nodes_void _ (same_nodes_validate_readiness self) w).
  - unfold start, on_node. cbn.
    destruct (upd_cases self r (base_node.start (nodes w self)) (nodes w))
      as [[-> ->]|[_ ->]]; auto.
  - unfold complete, on_node. cbn.
    destruct (upd_cases self r (base_node.complete results (nodes w self)) (nodes w))
      as [[-> ->]|[_ ->]]; eauto.
  - unfold handle_error, on_node.
    destruct (base_node.handle_error error (nodes w self)) as [o n] eqn:E. cbn.
    destruct (upd_cases self r n (nodes w)) as [[-> ->]|[_ ->]]; auto.
    right. right. right. exists error. by rewrite E.
Qed.

Lemma reachable_run (calls : list Call) :
  ∀ w, reachable w -> reachable (snd (run calls w)).
Proof.
  induction calls as [|c calls IH]; intros w Hw; [done|].
  cbn [run]. pose proof (reachable_call w c Hw) as H1.
  destruct (exec c w) as [o w1]. cbn [snd] in H1.
  specialize (IH w1 H1). by destruct (run calls w1).
Qed.

Lemma reachable_sample_world : reachable sample_world.
Proof. apply reachable_fresh. Qed.

(** C6.  The invariant [completed ⇒ ¬active] holds of every node in every
    store that calls of public methods reach from freshly constructed
    objects: it holds of a new node, [start] and [complete] establish it and
    [handle_error] keeps it. *)
Theorem NodeState_inv_reachable (w : World) :
  reachable w -> ∀ r : NodeRef, NodeState_inv (node_state w r).
Proof.
  induction 1 as [classes configs time inherited|w c Hw IH]; intros r.
  - apply NodeState_inv_new.
  - destruct (exec_node_state c w r) as [->|[->|[[res ->]|[e ->]]]].
    + apply IH.
    + apply NodeState_inv_start.
    + apply NodeState_inv_complete.
    + apply NodeState_inv_handle_error, IH.
Qed.

Lemma NodeState_inv_reachable_witness :
  reachable completed_world ∧
  base_node.completed (node_state completed_world 0) = true ∧
  NodeState_inv (node_state completed_world 0).
Proof.
  assert (Hr : reachable completed_world).
  { unfold completed_world, sample_world. do 3 apply reachable_call.
    apply reachable_fresh. }
  split; [exact Hr|]. split; [reflexivity|].
  apply (NodeState_inv_reachable completed_world Hr).
Defined.

(** ** [handle_error] and the iteration budget *)

Lemma handle_error_exec (w : World) (self : NodeRef) (e : PyExc) :
  let n := nodes w self in
  let r := exec (call_handle_error self e) w in
  fst r = handle_error_outcome_at (base_node.max_iterations (base_node.config n))
            (length (base_node.errors (base_node.state n))) ∧
  base_node.errors (node_state (snd r) self)
    = base_node.errors (base_node.state n) ++ [str e] ∧
  base_node.config (nodes (snd r) self) = base_node.config n.
Proof.
  cbn zeta. cbn [exec]. unfold handle_error, on_node, node_state.
  pose proof (handle_error_state e (nodes w self)) as Hs.
  pose proof (handle_error_config e (nodes w self)) as Hc.
  assert (Ho : fst (base_node.handle_error e (nodes w self))
               = handle_error_outcome_at
                   (base_node.max_iterations (base_node.config (nodes w self)))
                   (length (base_node.errors (base_node.state (nodes w self))))).
  { unfold base_node.handle_error, handle_error_outcome_at.
    cbn [base_node.state base_node.set_state base_node.set_errors
         base_node.errors base_node.config].
    rewrite length_app. cbn [length]. rewrite Nat.add_1_r. by case_match. }
  destruct (base_node.handle_error e (nodes w self)) as [o n]. cbn in *.
  rewrite upd_eq. by rewrite Hs, Hc.
Qed.

Lemma run_handle_error (errs : list PyExc) :
  ∀ (w : World) (self : NodeRef),
  let n := nodes w self in
  let m := base_node.max_iterations (base_node.config n) in
  let r := run (call_handle_error self <$> errs) w in
  fst r = handle_error_outcome_at m
            <$> seq (length (base_node.errors (base_node.state n))) (length errs) ∧
  base_node.errors (node_state (snd r) self)
    = base_node.errors (base_node.state n) ++ (str <$> errs).
Proof.
  induction errs as [|e errs IH]; intros w self; cbn zeta.
  - cbn. by rewrite app_nil_r.
  - rewrite fmap_cons. cbn [run length seq].
    destruct (handle_error_exec w self e) as (Ho & He & Hc).
    destruct (exec (call_handle_error self e) w) as [o w1]. cbn [fst snd] in *.
    specialize (IH w1 self). cbn zeta in IH. unfold node_state in He.
    rewrite Hc, He in IH.
    destruct (run (call_handle_error self <$> errs) w1) as [os w2].
    cbn [fst snd] in *. destruct IH as [-> ->].
    rewrite length_app, Nat.add_1_r, fmap_cons, Ho.
    split; [done|]. by rewrite <- app_assoc.
Qed.

(** C3.  On a node whose error list is empty and whose [max_iterations] is
    at least 1, every call of [handle_error] appends the message of its
    error; [max_iterations - 1] calls raise nothing, and of [max_iterations]
    calls the last one, and only it, raises ([RuntimeError], the source's
    Max-iterations failure). *)
Theorem handle_error_max_iterations (w : World) (self : NodeRef)
    (errs : list PyExc) :
  base_node.errors (node_state w self) = [] ->
  (1 <= base_node.max_iterations (base_node.config (nodes w self)))%Z ->
  let m := base_node.max_iterations (base_node.config (nodes w self)) in
  let r := run (call_handle_error self <$> errs) w in
  base_node.errors (node_state (snd r) self) = str <$> errs ∧
  (Z.of_nat (length errs) = (m - 1)%Z ->
     fst r = replicate (length errs) (Return tt)) ∧
  (Z.of_nat (length errs) = m ->
     fst r = replicate (length errs - 1) (Return tt)
               ++ [Raise (base_node.max_iterations_reached m)]).
Proof.
  intros Hnil Hm. cbn zeta. unfold node_state in Hnil.
  destruct (run_handle_error errs w self) as [Ho He]. cbn zeta in Ho, He.
  rewrite Hnil in Ho, He. cbn [length app] in Ho, He.
  split; [exact He|]. rewrite Ho.
  set (m := base_node.max_iterations (base_node.config (nodes w self))) in *.
  assert (Hlow : ∀ k, (Z.of_nat k < m)%Z ->
            handle_error_outcome_at m <$> seq 0 k = replicate k (Return tt)).
  { induction k as [|k IHk]; intros Hk; [done|].
    rewrite seq_S, fmap_app, IHk by lia. cbn [plus fmap list_fmap].
    unfold handle_error_outcome_at at 1.
    destruct (Z.leb_spec m (Z.of_nat (S k))) as [?|_]; [lia|].
    by rewrite replicate_S_end. }
  split; intros Hlen.
  - apply Hlow. lia.
  - destruct (length errs) as [|k] eqn:Hk; [lia|].
    rewrite seq_S, fmap_app, Hlow by lia. cbn [plus fmap list_fmap].
    replace (S k - 1)%nat with k by lia. f_equal.
    unfold handle_error_outcome_at.
    destruct (Z.leb_spec m (Z.of_nat (S k))) as [_|?]; [done|lia].
Qed.

Lemma handle_error_max_iterations_witness :
  let errs := [MkExc "Exception" "a" None; MkExc "ValueError" "b" None;
               MkExc "Exception" "c" None] in
  base_node.errors (node_state (snd (run (call_handle_error 0 <$> errs) sample_world)) 0)
    = ["a"; "b"; "c"] ∧
  fst (run (call_handle_error 0 <$> errs) sample_world)
    = [Return tt; Return tt; Raise (base_node.max_iterations_reached 3)].
Proof.
  cbn zeta.
  pose proof (handle_error_max_iterations sample_world 0
    [MkExc "Exception" "a" None; MkExc "ValueError" "b" None;
     MkExc "Exception" "c" None] eq_refl ltac:(cbn; lia)) as (He & _ & Hr).
  split; [exact He|]. exact (Hr eq_refl).
Defined.

(** ** [add_next_node] *)

Lemma count_occ_snoc (l : list nat) (x y : nat) :
  count_occ Nat.eq_dec (l ++ [y]) x
  = (count_occ Nat.eq_dec l x + (if Nat.eq_dec y x then 1 else 0))%nat.
Proof. rewrite count_occ_app. cbn. by destruct (Nat.eq_dec y x). Qed.

Lemma add_next_node_lists (w : World) (a b : NodeRef) :
  let w' := snd (add_next_node a b w) in
  base_node.next_nodes (nodes w' a) = base_node.next_nodes (nodes w a) ++ [b] ∧
  base_node.previous_nodes (nodes w' b)
    = base_node.previous_nodes (nodes w b) ++ [a].
Proof.
  cbn zeta. unfold add_next_node, bind, get_node, put_node. cbn.
  destruct (decide (a = b)) as [->|Hne].
  - by rewrite !upd_eq.
  - rewrite (upd_ne b a), !upd_eq by done.
    by rewrite (upd_ne a b) by done.
Qed.

(** C4, as the code has it.  After [A.add_next_node(B)], [B] is in [A]'s
    next-node list and [A] is in [B]'s previous-node list, and each call
    appends one more occurrence: the number of occurrences of [B] in
    [A.next_nodes] and of [A] in [B.previous_nodes] grows by exactly one. *)
Theorem add_next_node_appends (w : World) (A B : NodeRef) :
  let w' := snd (add_next_node A B w) in
  fst (add_next_node A B w) = Return tt ∧
  B ∈ base_node.next_nodes (nodes w' A) ∧
  A ∈ base_node.previous_nodes (nodes w' B) ∧
  count_occ Nat.eq_dec (base_node.next_nodes (nodes w' A)) B
    = S (count_occ Nat.eq_dec (base_node.next_nodes (nodes w A)) B) ∧
  count_occ Nat.eq_dec (base_node.previous_nodes (nodes w' B)) A
    = S (count_occ Nat.eq_dec (base_node.previous_nodes (nodes w B)) A).
Proof.
  cbn zeta. destruct (add_next_node_lists w A B) as [-> ->].
  split; [done|].
  rewrite !count_occ_snoc. destruct (Nat.eq_dec B B), (Nat.eq_dec A A); try done.
  split; [set_solver|]. split; [set_solver|]. split; lia.
Qed.

(** C4, as stated, fails: two calls of [A.add_next_node(B)] on new nodes
    leave [B] twice in [A.next_nodes] and [A] twice in
    [B.previous_nodes]. *)
Lemma add_next_node_twice :
  let w' := snd (run [call_add_next_node 0 1; call_add_next_node 0 1] sample_world) in
  base_node.next_nodes (nodes w' 0) = [1; 1]%nat ∧
  base_node.previous_nodes (nodes w' 1) = [0; 0]%nat ∧
  count_occ Nat.eq_dec (base_node.next_nodes (nodes w' 0)) 1 ≠ 1%nat ∧
  count_occ Nat.eq_dec (base_node.previous_nodes (nodes w' 1)) 0 ≠ 1%nat.
Proof. cbn. repeat split; discriminate. Qed.

(** ** [validate_readiness] *)

Lemma previous_completed_spec (w : World) (prev : list NodeRef) :
  ∃ b, previous_completed prev w = (Return b, w) ∧
       (b = true ↔ ∀ p, p ∈ prev -> base_node.completed (node_state w p) = true).
Proof.
  induction prev as [|p prev (b & Hb & Hiff)]; cbn.
  - exists true. split; [done|]. split; [|done]. intros _ p Hp. by inversion Hp.
  - unfold bind, get_node, ret. fold (node_state w p).
    destruct (base_node.completed (node_state w p)) eqn:Hp; cbn.
    + exists b. split; [done|]. rewrite Hiff. split.
      * intros H q Hq. apply elem_of_cons in Hq as [->|Hq]; auto.
      * intros H q Hq. apply H. by right.
    + exists false. split; [done|]. split; [done|].
      intros H. rewrite <- Hp. apply H. by left.
Qed.

(** C2.  [validate_readiness] raises (a [ValueError] naming the missing
    set) when some required name is not among the keys of the bound agents;
    otherwise it returns, and returns true exactly when every predecessor's
    [completed] flag is set.  Either way it leaves the store as it found it:
    no node state and no agent's confidence changes. *)
Theorem validate_readiness_spec (w : World) (self : NodeRef) :
  let n := nodes w self in
  let required := base_node.required_agents (base_node.config n) in
  let bound : gset string := dom (base_node.participating_agents n) in
  (¬ (∀ r, r ∈ required -> r ∈ bound) ->
     validate_readiness self w
     = (Raise (missing_required_agents (list_to_set required ∖ bound)), w)) ∧
  ((∀ r, r ∈ required -> r ∈ bound) ->
     ∃ b : bool,
       validate_readiness self w = (Return b, w) ∧
       (b = true ↔
        ∀ p, p ∈ base_node.previous_nodes n ->
             base_node.completed (node_state w p) = true)).
Proof.
  cbn zeta. unfold validate_readiness, bind, get_node, raise.
  case_bool_decide as Hmiss; split.
  - done.
  - intros Hall. exfalso. apply Hmiss. apply set_eq. intros r.
    rewrite elem_of_difference, elem_of_list_to_set.
    split; [intros [Hr Hout]; by apply Hall in Hr|intros Hr; by inversion Hr].
  - intros Hnot. exfalso. apply Hnot. intros r Hr.
    destruct (decide (r ∈ dom (base_node.participating_agents (nodes w self))))
      as [|Hout]; [done|].
    exfalso.
    assert (r ∈ (list_to_set (base_node.required_agents
                   (base_node.config (nodes w self))) : gset string)
                ∖ dom (base_node.participating_agents (nodes w self))) as Hin.
    { apply elem_of_difference. by rewrite elem_of_list_to_set. }
    rewrite Hmiss in Hin. set_solver.
  - intros _. apply previous_completed_spec.
Qed.

Lemma validate_readiness_spec_witness :
  (∃ e, validate_readiness 0 sample_world = (Raise e, sample_world)) ∧
  validate_readiness 1 ready_world = (Return true, ready_world).
Proof.
  split.
  - eexists. apply (validate_readiness_spec sample_world 0).
    intros H. specialize (H "analyst" ltac:(by left)). set_solver.
  - destruct (proj2 (validate_readiness_spec ready_world 1)) as (b & Hb & Hiff).
    + intros r Hr. apply list_elem_of_singleton in Hr as ->.
      apply elem_of_dom. by eexists.
    + rewrite Hb. f_equal. f_equal. apply Hiff. intros p Hp.
      apply list_elem_of_singleton in Hp as ->. reflexivity.
Defined.

(** ** [connect_agent] *)









(** ** [update_state] *)

Section update_state.
Import base_agent.

Lemma hasattr_field (inherited : string -> bool) (st : AgentState)
    (key : string) :
  key ∈ AgentState_fields -> hasattr inherited st key = true.
Proof.
  intros H. unfold hasattr. by rewrite bool_decide_eq_true_2.
Qed.

Lemma hasattr_other (inherited : string -> bool) (st : AgentState)
    (key : string) :
  key ∉ AgentState_fields -> other_attr inherited key = false ->
  hasattr inherited st key = false.
Proof.
  intros H1 H2. unfold hasattr. by rewrite bool_decide_eq_false_2, H2.
Qed.

Lemma field_cases (key : string) :
  key ∈ AgentState_fields ->
  key = "current_task" ∨ key = "memory" ∨ key = "confidence" ∨ key = "context".
Proof.
  unfold AgentState_fields. rewrite !elem_of_cons, elem_of_nil. tauto.
Qed.

Lemma setattr_field (st : AgentState) (key : string) (value : PyVal) :
  key ∈ AgentState_fields ->
  ∃ st', setattr st key value = Return st' ∧
         getattr st' key = Some value ∧
         ∀ f, f ≠ key -> getattr st' f = getattr st f.
Proof.
  intros H. apply field_cases in H. destruct H as [H|[H|[H|H]]]; subst key;
    eexists; (split; [reflexivity|]);
    (split; [reflexivity|]); intros f Hf; unfold getattr;
    destruct (String.eqb_spec f "current_task") as [->|?]; try done;
    destruct (String.eqb_spec f "memory") as [->|?]; try done;
    destruct (String.eqb_spec f "confidence") as [->|?]; try done;
    destruct (String.eqb_spec f "context") as [->|?]; done.
Qed.

Lemma getattr_not_field (st : AgentState) (f : string) :
  f ∉ AgentState_fields -> getattr st f = None.
Proof.
  intros H. unfold getattr.
  assert (Hno : ∀ k, k ∈ AgentState_fields -> f ≠ k) by (intros k Hk ->; done).
  unfold AgentState_fields in Hno.
  destruct (String.eqb_spec f "current_task") as [->|?];
    [exfalso; eapply Hno; [|done]; rewrite !elem_of_cons; tauto|].
  destruct (String.eqb_spec f "memory") as [->|?];
    [exfalso; eapply Hno; [|done]; rewrite !elem_of_cons; tauto|].
  destruct (String.eqb_spec f "confidence") as [->|?];
    [exfalso; eapply Hno; [|done]; rewrite !elem_of_cons; tauto|].
  destruct (String.eqb_spec f "context") as [->|?];
    [exfalso; eapply Hno; [|done]; rewrite !elem_of_cons; tauto|].
  done.
Qed.

Lemma dict_get_None (items : list (string * PyVal)) (k : string) :
  k ∉ items.*1 -> dict_get items k = None.
Proof.
  induction items as [|[k' v] items IH]; [done|]. cbn. intros Hk.
  apply not_elem_of_cons in Hk as [Hne Hk].
  destruct (String.eqb_spec k k') as [->|?]; [done|]. by apply IH.
Qed.

(** What [update_state] does away from the methods of the model class.
    When no key of the mapping names
    an attribute of the state object other than a field, [update_state]
    returns, each field named in the mapping holds the value given for it,
    and every other field is as before: keys that name no attribute at all
    are skipped. *)
Lemma update_state_items_fields (inherited : string -> bool)
    (items : list (string * PyVal)) :
  ∀ st : AgentState,
  NoDup items.*1 ->
  Forall (λ kv, kv.1 ∉ AgentState_fields -> other_attr inherited kv.1 = false)
    items ->
  ∃ st', update_state_items inherited items st = (Return tt, st') ∧
         ∀ f, f ∈ AgentState_fields ->
              getattr st' f = match dict_get items f with
                              | Some v => Some v
                              | None => getattr st f
                              end.
Proof.
  induction items as [|[k v] items IH]; intros st Hnd Hattrs.
  - by exists st.
  - apply NoDup_cons in Hnd as [Hk Hnd]. apply Forall_cons in Hattrs as [Hkattr Hattrs].
    cbn in Hk, Hkattr. cbn [update_state_items].
    destruct (decide (k ∈ AgentState_fields)) as [Hfield|Hfield].
    + rewrite hasattr_field by done.
      destruct (setattr_field st k v Hfield) as (st1 & -> & Hget & Hframe).
      destruct (IH st1 Hnd Hattrs) as (st' & -> & Hst').
      exists st'. split; [done|]. intros f Hf. rewrite (Hst' f Hf). cbn.
      destruct (String.eqb_spec f k) as [->|Hne].
      * by rewrite dict_get_None.
      * by rewrite Hframe.
    + rewrite hasattr_other by auto.
      destruct (IH st Hnd Hattrs) as (st' & -> & Hst').
      exists st'. split; [done|]. intros f Hf. rewrite (Hst' f Hf). cbn.
      destruct (String.eqb_spec f k) as [->|Hne]; [done|done].
Qed.

End update_state.

(** C10 at the key [dict].  [dict] names no field of [AgentState] but it
    names an attribute of the state object (the method that [reflect]
    calls), so [hasattr] lets it through and the assignment is refused:
    [update_state] raises instead of skipping the key, and the keys that
    follow it in the mapping are not applied. *)
Theorem update_state_dict_key :
  let r := update_state 0 [("confidence", VFloat (1 # 2)); ("dict", VNone);
                           ("memory", VStr "m")] sample_world in
  ("dict" ∉ base_agent.AgentState_fields) ∧
  fst r = Raise (base_agent.no_field "dict") ∧
  base_agent.confidence (state_of (snd r) 0) = VFloat (1 # 2) ∧
  base_agent.memory (state_of (snd r) 0) = VDict [] ∧
  fst (update_state 0 [("dict", VNone)] sample_world)
    = Raise (base_agent.no_field "dict").
Proof.
  cbn zeta. split; [|by vm_compute].
  unfold base_agent.AgentState_fields.
  rewrite !elem_of_cons, elem_of_nil. intros [?|[?|[?|[?|[]]]]]; discriminate.
Qed.

(** ** The steps of [process] and [collaborate] *)

Lemma update_state_current_task (inherited : string -> bool)
    (a : base_agent.BaseAgent) (v : PyVal) :
  base_agent.update_state inherited [("current_task", v)] a
  = (Return tt, with_task v a).
Proof. reflexivity. Qed.

Lemma update_state_label (w : World) (self : AgentRef) (v : PyVal) :
  update_state self [("current_task", v)] w
  = (Return tt,
     set_agents
       (upd self (base_agent.set_obj (with_task v (base_agent.obj (agents w self)))
                    (agents w self)) (agents w)) w).
Proof. reflexivity. Qed.

(** Setting the label changes no class and no confidence. *)
Lemma labelled_store (w : World) (self r : AgentRef) (v : PyVal) :
  let w1 := snd (update_state self [("current_task", v)] w) in
  base_agent.class_of (agents w1 r) = base_agent.class_of (agents w r) ∧
  confidence_of w1 r = confidence_of w r.
Proof.
  cbn zeta. rewrite update_state_label. unfold confidence_of. cbn.
  by destruct (upd_cases self r
       (base_agent.set_obj (with_task v (base_agent.obj (agents w self)))
          (agents w self)) (agents w)) as [[-> ->]|[_ ->]].
Qed.

Lemma failed_float (w : World) (self : AgentRef) (factor q : Q)
    (prefix : string) (e : PyExc) :
  confidence_of w self = VFloat q ->
  let r := failed self factor prefix e w in
  fst r = Raise (failure prefix e) ∧
  confidence_of (snd r) self = VFloat (q * factor) ∧
  current_task_of (snd r) self = current_task_of w self ∧
  (∀ r', r' ≠ self -> agents (snd r) r' = agents w r').
Proof.
  unfold confidence_of, current_task_of. intros Hq. cbn zeta.
  unfold failed, bind, on_agent, base_agent.imul_confidence, raise.
  rewrite Hq. cbn. rewrite upd_eq. cbn. repeat split.
  intros r' Hne. by rewrite upd_ne.
Qed.

Lemma run_body_agents (w : World) (self : AgentRef) body :
  let r := run_body self body w in
  fst r = base_agent.outcome
            (body (base_agent.obj (agents w self)) (fun i => clock w (ticks w + i)%nat)) ∧
  base_agent.state (base_agent.obj (agents (snd r) self))
    = base_agent.state (base_agent.obj (agents w self)) ∧
  (∀ r', r' ≠ self -> agents (snd r) r' = agents w r').
Proof.
  cbn zeta. unfold run_body. cbn. rewrite upd_eq. cbn. repeat split.
  intros r' Hne. by rewrite upd_ne.
Qed.

Lemma process_unfold (w : World) (self : AgentRef) (input_data : PyVal) :
  let cls := base_agent.class_of (agents w self) in
  let w1 :=
    snd (update_state self
           [("current_task", VStr (base_agent.process_task cls))] w) in
  process self input_data w
  = try_except
      (run_body self (fun me => base_agent.process_try cls me input_data))
      (failed self (8 # 10) (base_agent.process_failed cls)) w1.
Proof. reflexivity. Qed.

(** [collaborate] sets the label that names the peer, then calls the peer's
    [process] on the context, in the store that holds the label; what the
    peer raises goes to the [except] clause. *)
Lemma collaborate_unfold (w : World) (self other : AgentRef) (context : PyVal) :
  let cls := base_agent.class_of (agents w self) in
  let peer := base_agent.name (base_agent.personality (base_agent.obj (agents w other))) in
  let w1 :=
    snd (update_state self
           [("current_task", VStr (base_agent.collaborate_task cls +:+ peer))] w) in
  collaborate self other context w
  = match process other context w1 with
    | (Return other_result, w2) =>
        try_except
          (run_body self
             (fun me =>
                base_agent.collaborate_try cls me
                  (base_agent.personality (base_agent.obj (agents w2 other)))
                  other_result context))
          (failed self (9 # 10) (base_agent.collaborate_failed cls)) w2
    | (Raise e, w2) =>
        if is_Exception e
        then failed self (9 # 10) (base_agent.collaborate_failed cls) e w2
        else (Raise e, w2)
    end.
Proof.
  cbn zeta. unfold collaborate at 1.
  unfold bind at 1. unfold get_class at 1. unfold bind at 1. unfold get_agent at 1.
  unfold bind at 1. rewrite update_state_label. cbn [fst snd].
  unfold try_except at 1. unfold bind at 1.
  destruct (process other context _) as [[v|e] w2]; [|done].
  unfold bind at 1. unfold get_agent at 1. reflexivity.
Qed.

Lemma is_Exception_failure (prefix : string) (cause : PyExc) :
  is_Exception (failure prefix cause) = true.
Proof. reflexivity. Qed.

(** What [process] does on an agent whose confidence is a float: it returns
    what the body of its [try:] block returns and leaves the confidence, or
    it multiplies the confidence by 0.8 and raises [failure] of the
    [Exception] that the body raised, or it lets through an error of the
    body that is not an [Exception] and leaves the confidence.  Other
    agents are not touched. *)
Lemma process_outcome (w : World) (self : AgentRef) (input_data : PyVal) (q : Q) :
  confidence_of w self = VFloat q ->
  let cls := base_agent.class_of (agents w self) in
  let me := with_task (VStr (base_agent.process_task cls))
              (base_agent.obj (agents w self)) in
  let b := base_agent.process_try cls me input_data
             (fun i => clock w (ticks w + i)%nat) in
  let r := process self input_data w in
  (∀ r', r' ≠ self -> agents (snd r) r' = agents w r') ∧
  current_task_of (snd r) self = VStr (base_agent.process_task cls) ∧
  match base_agent.outcome b with
  | Return v => fst r = Return v ∧ confidence_of (snd r) self = VFloat q
  | Raise cause =>
      if is_Exception cause
      then fst r = Raise (failure (base_agent.process_failed cls) cause) ∧
           confidence_of (snd r) self = VFloat (q * (8 # 10))
      else fst r = Raise cause ∧ confidence_of (snd r) self = VFloat q
  end.
Proof.
  intros Hq. cbn zeta. rewrite process_unfold. cbn zeta.
  rewrite update_state_label. cbn [snd].
  set (cls := base_agent.class_of (agents w self)).
  set (w1 := set_agents _ w).
  assert (H1 : agents w1 self
               = base_agent.set_obj
                   (with_task (VStr (base_agent.process_task cls))
                      (base_agent.obj (agents w self))) (agents w self)).
  { unfold w1. cbn. by rewrite upd_eq. }
  assert (Hf1 : ∀ r', r' ≠ self -> agents w1 r' = agents w r').
  { intros r' Hne. unfold w1. cbn. by rewrite upd_ne. }
  unfold try_except.
  destruct (run_body_agents w1 self
              (fun me => base_agent.process_try cls me input_data))
    as (Ho & Hst & Hfr).
  destruct (run_body self _ w1) as [o w2]. cbn [fst snd] in *.
  rewrite H1 in Ho, Hst. cbn [base_agent.obj base_agent.set_obj] in Ho, Hst.
  change (clock w1) with (clock w) in Ho. change (ticks w1) with (ticks w) in Ho.
  assert (Hq2 : confidence_of w2 self = VFloat q).
  { unfold confidence_of in *. rewrite Hst. cbn. exact Hq. }
  assert (Ht2 : current_task_of w2 self = VStr (base_agent.process_task cls)).
  { unfold current_task_of. by rewrite Hst. }
  rewrite <- Ho. destruct o as [v|cause]; cbn [fst snd].
  - split; [|done]. intros r' Hne. by rewrite Hfr, Hf1.
  - destruct (is_Exception cause); cbn [fst snd].
    + destruct (failed_float w2 self (8 # 10) q (base_agent.process_failed cls)
                  cause Hq2) as (Hr & Hc & Ht & Hfr').
      cbn zeta in *. split; [|split; [|done]].
      * intros r' Hne. by rewrite Hfr', Hfr, Hf1.
      * by rewrite Ht.
    + split; [|done]. intros r' Hne. by rewrite Hfr, Hf1.
Qed.

(** Agents other than [self] are the same objects after [self.process]. *)
Lemma process_frame (self r' : AgentRef) (input_data : PyVal) :
  r' ≠ self -> preserves (same_agent r') (process self input_data).
Proof.
  intros Hne. apply preserves_process.
  - done.
  - unfold same_agent. congruence.
  - split; [|split; [|split]]; intros x w; unfold same_agent.
    + rewrite update_state_label. cbn. by rewrite upd_ne.
    + unfold run_body. cbn. by rewrite upd_ne.
    + unfold on_agent. destruct (base_agent.imul_confidence _ _ _). cbn.
      by rewrite upd_ne.
    + unfold on_agent. destruct (base_agent.imul_confidence _ _ _). cbn.
      by rewrite upd_ne.
Qed.

(** Classes, personalities and knowledge bases are fixed at construction. *)
Lemma same_classes_on_agent_state {A} (self : AgentRef)
    (f : base_agent.BaseAgent -> Outcome A * base_agent.BaseAgent) :
  (∀ a, base_agent.personality (snd (f a)) = base_agent.personality a ∧
        base_agent.knowledge_base (snd (f a)) = base_agent.knowledge_base a) ->
  preserves same_classes (on_agent self f).
Proof.
  intros Hf w r. unfold on_agent.
  destruct (Hf (base_agent.obj (agents w self))) as [Hp Hk].
  destruct (f _) as [o a]. cbn in *.
  destruct (upd_cases self r (base_agent.set_obj a (agents w self)) (agents w))
    as [[-> ->]|[_ ->]]; done.
Qed.

Lemma same_classes_agent_steps (self : AgentRef) : agent_steps same_classes self.
Proof.
  split; [|split; [|split]]; intros x.
  - intros w. unfold update_state. apply same_classes_on_agent_state. by intros a.
  - intros w r. unfold run_body. cbn.
    match goal with
    | |- context [upd ?a ?x ?h ?b] =>
        destruct (upd_cases a b x h) as [[-> ->]|[? ->]]
    end; done.
  - apply same_classes_on_agent_state. intros a.
    unfold base_agent.imul_confidence. by case_match.
  - apply same_classes_on_agent_state. intros a.
    unfold base_agent.imul_confidence. by case_match.
Qed.

Lemma same_classes_refl (w : World) : same_classes w w.
Proof. by intros r. Qed.

Lemma same_classes_trans (w1 w2 w3 : World) :
  same_classes w1 w2 -> same_classes w2 w3 -> same_classes w1 w3.
Proof.
  intros H12 H23 r. destruct (H12 r) as (? & ? & ?), (H23 r) as (? & ? & ?).
  repeat split; congruence.
Qed.

Lemma same_classes_process (self : AgentRef) (input_data : PyVal) :
  preserves same_classes (process self input_data).
Proof.
  apply preserves_process;
    [apply same_classes_refl|apply same_classes_trans|apply same_classes_agent_steps].
Qed.

(** What [collaborate] does on an agent whose confidence is a float [q].
    After the peer's [process] the confidence is [q2]: it is [q], unless the
    peer is the agent itself and that [process] call failed, which has
    already multiplied it by 0.8.  Then [collaborate] returns and leaves
    [q2], or it multiplies [q2] by 0.9 and raises [failure] of the
    [Exception] it caught, or it lets through an error that is not an
    [Exception] and leaves [q2].  With another agent as peer the task label
    names the peer. *)
Lemma collaborate_outcome (w : World) (self other : AgentRef) (context : PyVal)
    (q : Q) :
  confidence_of w self = VFloat q ->
  let cls := base_agent.class_of (agents w self) in
  let peer := base_agent.name (base_agent.personality (base_agent.obj (agents w other))) in
  let r := collaborate self other context w in
  let w1 := snd (update_state self
                   [("current_task",
                     VStr (base_agent.collaborate_task cls +:+ peer))] w) in
  ∃ q2 : Q,
    confidence_of (snd (process other context w1)) self = VFloat q2 ∧
    (other ≠ self -> q2 = q) ∧
    (other ≠ self ->
       current_task_of (snd r) self
       = VStr (base_agent.collaborate_task cls +:+ peer)) ∧
    ((∃ v, fst r = Return v ∧ confidence_of (snd r) self = VFloat q2) ∨
     (∃ cause,
        is_Exception cause = true ∧
        fst r = Raise (failure (base_agent.collaborate_failed cls) cause) ∧
        confidence_of (snd r) self = VFloat (q2 * (9 # 10))) ∨
     (∃ e,
        is_Exception e = false ∧ fst r = Raise e ∧
        confidence_of (snd r) self = VFloat q2)) ∧
    (∀ cause,
       fst (process other context w1) = Raise cause ->
       if is_Exception cause
       then fst r = Raise (failure (base_agent.collaborate_failed cls) cause)
       else fst r = Raise cause).
Proof.
  intros Hq. cbn zeta. rewrite collaborate_unfold. cbn zeta.
  rewrite update_state_label. cbn [snd].
  set (cls := base_agent.class_of (agents w self)).
  set (label := VStr (base_agent.collaborate_task cls +:+ _)).
  set (w1 := set_agents _ w).
  assert (Hq1 : confidence_of w1 self = VFloat q).
  { unfold confidence_of, w1 in *. cbn. rewrite upd_eq. exact Hq. }
  assert (Ht1 : current_task_of w1 self = label).
  { unfold current_task_of, w1. cbn. by rewrite upd_eq. }
  assert (Hp : ∃ q2, (other ≠ self -> q2 = q) ∧
                     confidence_of (snd (process other context w1)) self = VFloat q2 ∧
                     (other ≠ self ->
                        current_task_of (snd (process other context w1)) self = label)).
  { destruct (decide (other = self)) as [->|Hne].
    - destruct (process_outcome w1 self context q Hq1) as (_ & _ & Hm).
      cbn zeta in Hm. destruct (base_agent.outcome _) as [v|cause];
        [|destruct (is_Exception cause)]; destruct Hm as [_ Hc];
        eexists; (split; [|split; [exact Hc|done]]);
        intros H; by destruct (H eq_refl).
    - exists q. split; [done|].
      assert (Hs : self ≠ other) by done.
      pose proof (process_frame other self context Hs w1) as Hfr.
      unfold same_agent in Hfr. unfold confidence_of, current_task_of in *.
      rewrite Hfr. by split. }
  destruct Hp as (q2 & Hsame & Hq2 & Ht2).
  exists q2. split; [exact Hq2|]. split; [exact Hsame|].
  destruct (process other context w1) as [[v|e] w2]; cbn [fst snd] in *.
  - unfold try_except.
    match goal with
    | |- context [run_body self ?body w2] =>
        destruct (run_body_agents w2 self body) as (Ho & Hst & Hfr);
        destruct (run_body self body w2) as [o w3]
    end.
    cbn [fst snd] in *.
    assert (Hq3 : confidence_of w3 self = VFloat q2).
    { unfold confidence_of in *. by rewrite Hst. }
    assert (Ht3 : other ≠ self -> current_task_of w3 self = label).
    { intros Hne. unfold current_task_of in *. rewrite Hst. by apply Ht2. }
    destruct o as [v'|cause]; cbn [fst snd].
    + split; [exact Ht3|]. split; [|done]. left. by exists v'.
    + destruct (is_Exception cause) eqn:Hexc; cbn [fst snd].
      * destruct (failed_float w3 self (9 # 10) q2
                    (base_agent.collaborate_failed cls) cause Hq3)
          as (Hr & Hc & Ht & _).
        cbn zeta in *. split; [|split; [|done]].
        -- intros Hne. rewrite Ht. by apply Ht3.
        -- right. left. by exists cause.
      * split; [exact Ht3|]. split; [|done]. right. right. by exists cause.
  - destruct (is_Exception e) eqn:Hexc; cbn [fst snd].
    + destruct (failed_float w2 self (9 # 10) q2
                  (base_agent.collaborate_failed cls) e Hq2)
        as (Hr & Hc & Ht & _).
      cbn zeta in *. split; [|split].
      * intros Hne. rewrite Ht. by apply Ht2.
      * right. left. by exists e.
      * intros cause [= <-]. by rewrite Hexc.
    + split; [exact Ht2|]. split.
      * right. right. by exists e.
      * intros cause [= <-]. by rewrite Hexc.
Qed.

(** ** Confidence *)

Section confidence.
Local Open Scope Q_scope.

Lemma no_increase_refl (w : World) : no_increase w w.
Proof. intros r q Hq H0. exists q. repeat split; [done..|lra]. Qed.

Lemma no_increase_trans (w1 w2 w3 : World) :
  no_increase w1 w2 -> no_increase w2 w3 -> no_increase w1 w3.
Proof.
  intros H12 H23 r q Hq H0.
  destruct (H12 r q Hq H0) as (q2 & Hq2 & H02 & Hle2).
  destruct (H23 r q2 Hq2 H02) as (q3 & Hq3 & H03 & Hle3).
  exists q3. repeat split; [done..|lra].
Qed.

Lemma no_increase_same_states (w w' : World) :
  (∀ r, confidence_of w' r = confidence_of w r) -> no_increase w w'.
Proof.
  intros H r q Hq H0. exists q. rewrite H. repeat split; [done..|lra].
Qed.

Lemma no_increase_imul (self : AgentRef) (factor : Q) (e : PyExc) :
  0 <= factor -> factor <= 1 ->
  preserves no_increase (on_agent self (base_agent.imul_confidence factor e)).
Proof.
  intros Hf0 Hf1 w r q Hq H0. unfold on_agent.
  destruct (decide (r = self)) as [->|Hne].
  - unfold base_agent.imul_confidence. unfold confidence_of in *.
    rewrite Hq. cbn. rewrite upd_eq. cbn.
    exists (q * factor). split; [done|]. split; nra.
  - destruct (base_agent.imul_confidence _ _ _) as [o a].
    unfold confidence_of in *. cbn [snd set_agents agents].
    rewrite upd_ne by done.
    exists q. split; [done|]. split; lra.
Qed.

Lemma no_increase_agent_steps (self : AgentRef) : agent_steps no_increase self.
Proof.
  split; [|split; [|split]]; intros x.
  - intros w. apply no_increase_same_states. intros r.
    rewrite update_state_label. unfold confidence_of. cbn.
    match goal with
    | |- context [upd ?a ?x ?h ?b] =>
        destruct (upd_cases a b x h) as [[-> ->]|[? ->]]
    end; done.
  - intros w. apply no_increase_same_states. intros r.
    unfold run_body, confidence_of. cbn.
    match goal with
    | |- context [upd ?a ?x ?h ?b] =>
        destruct (upd_cases a b x h) as [[-> ->]|[? ->]]
    end; done.
  - apply no_increase_imul; lra.
  - apply no_increase_imul; lra.
Qed.

Lemma no_increase_exec (c : Call) :
  is_agent_call c = true -> preserves no_increase (exec c).
Proof.
  destruct c; try discriminate; intros _; cbn [exec];
    apply preserves_void;
    try apply no_increase_refl; try apply no_increase_trans.
  - apply preserves_process;
      [apply no_increase_refl|apply no_increase_trans|apply no_increase_agent_steps].
  - apply preserves_collaborate;
      [apply no_increase_refl|apply no_increase_trans
      |apply no_increase_agent_steps..].
Qed.

Lemma no_increase_run (calls : list Call) :
  forallb is_agent_call calls = true -> ∀ w, no_increase w (snd (run calls w)).
Proof.
  induction calls as [|c calls IH]; intros Hall w.
  - apply no_increase_refl.
  - cbn in Hall. apply andb_true_iff in Hall as [Hc Hall].
    cbn [run]. pose proof (no_increase_exec c Hc w) as H1.
    destruct (exec c w) as [o w1]. cbn [snd] in H1.
    pose proof (IH Hall w1) as H2.
    destruct (run calls w1) as [os w2]. cbn [snd] in *.
    by eapply no_increase_trans.
Qed.

Lemma count_failed_cons {A} (o : Outcome A) (os : list (Outcome A)) :
  count_failed (o :: os)
  = (if raised_Exception o then S (count_failed os) else count_failed os).
Proof.
  unfold count_failed. rewrite filter_cons.
  destruct (raised_Exception o); by case_decide.
Qed.

Lemma count_failed_all {A} (os : list (Outcome A)) :
  Forall (λ o, raised_Exception o = true) os -> count_failed os = length os.
Proof.
  induction 1 as [|o os Ho _ IH]; [done|].
  rewrite count_failed_cons, Ho. cbn. by rewrite IH.
Qed.

Lemma run_length (calls : list Call) :
  ∀ w, length (fst (run calls w)) = length calls.
Proof.
  induction calls as [|c calls IH]; intros w; [done|].
  cbn [run]. destruct (exec c w) as [o w1]. specialize (IH w1).
  destruct (run calls w1) as [os w2]. cbn in *. by rewrite IH.
Qed.

Lemma Qpower_S (f : Q) (n : nat) :
  ¬ f == 0 -> f ^ Z.of_nat (S n) == f ^ Z.of_nat n * f.
Proof.
  intros Hf. rewrite Nat2Z.inj_succ, <- Z.add_1_r, Qpower_plus by done.
  by rewrite Qpower_1_r.
Qed.

Lemma void_outcome {A} (m : M A) (w : World) :
  is_raise (fst (void m w)) = is_raise (fst (m w)) ∧ snd (void m w) = snd (m w).
Proof. unfold void, bind, ret. by destruct (m w) as [[a|e] w']. Qed.

Lemma void_raised {A} (m : M A) (w : World) :
  raised_Exception (fst (void m w)) = raised_Exception (fst (m w)).
Proof. unfold void, bind, ret. by destruct (m w) as [[a|e] w']. Qed.

(** One [process] call on an agent whose confidence is the float [q]:
    the confidence is multiplied by 0.8 when the call raises an
    [Exception] and is left as it is otherwise. *)
Lemma process_decay (w : World) (self : AgentRef) (input_data : PyVal) (q : Q) :
  confidence_of w self = VFloat q ->
  let r := process self input_data w in
  confidence_of (snd r) self
  = VFloat (if raised_Exception (fst r) then q * (8 # 10) else q).
Proof.
  intros Hq. cbn zeta.
  destruct (process_outcome w self input_data q Hq) as (_ & _ & Hm).
  cbn zeta in Hm.
  destruct (base_agent.outcome _) as [v|cause];
    [|destruct (is_Exception cause) eqn:Hexc]; destruct Hm as [-> ->];
    cbn [raised_Exception]; by rewrite ?is_Exception_failure, ?Hexc.
Qed.

(** One [collaborate] call on an agent whose confidence is the float [q],
    where [q2] is the confidence after the peer's [process]: the
    confidence is [q2] times 0.9 when the call raises an [Exception] and
    [q2] otherwise. *)
Lemma collaborate_decay (w : World) (self other : AgentRef) (context : PyVal)
    (q : Q) :
  confidence_of w self = VFloat q ->
  let r := collaborate self other context w in
  ∃ q2 : Q,
    confidence_of
      (snd (process other context
              (snd (update_state self
                      [("current_task",
                        VStr (base_agent.collaborate_task
                                (base_agent.class_of (agents w self))
                                +:+ base_agent.name
                                      (base_agent.personality
                                         (base_agent.obj (agents w other)))))]
                      w)))) self
    = VFloat q2 ∧
    (other ≠ self -> q2 = q) ∧
    confidence_of (snd r) self
    = VFloat (if raised_Exception (fst r) then q2 * (9 # 10) else q2).
Proof.
  intros Hq. cbn zeta.
  destruct (collaborate_outcome w self other context q Hq)
    as (q2 & Hq2 & Hsame & _ & Hm & _).
  cbn zeta in Hq2, Hm. exists q2. split; [exact Hq2|]. split; [exact Hsame|].
  destruct Hm as [(v & -> & ->)|[(cause & Hexc & -> & ->)|(e & Hexc & -> & ->)]];
    cbn [raised_Exception]; by rewrite ?is_Exception_failure, ?Hexc.
Qed.

(** Over any run of [process] calls on an agent whose confidence is the
    float [q], the confidence ends at [q] times 0.8 to the number of calls
    that raised an [Exception]. *)
Lemma run_process_decay (self : AgentRef) (inputs : list PyVal) :
  ∀ (w : World) (q : Q),
  confidence_of w self = VFloat q ->
  let r := run (call_process self <$> inputs) w in
  ∃ q', confidence_of (snd r) self = VFloat q' ∧
        q' == q * (8 # 10) ^ Z.of_nat (count_failed (fst r)).
Proof.
  induction inputs as [|i inputs IH]; intros w q Hq; cbn zeta.
  - exists q. split; [done|]. change (q == q * 1). lra.
  - rewrite fmap_cons. cbn [run exec].
    destruct (void_outcome (process self i) w) as [_ Hsnd].
    pose proof (void_raised (process self i) w) as Hraise.
    pose proof (process_decay w self i q Hq) as Hq1. cbn zeta in Hq1.
    destruct (void (process self i) w) as [o w1]. cbn [fst snd] in *. subst w1.
    rewrite <- Hraise in Hq1.
    destruct (IH (snd (process self i w)) _ Hq1) as (q' & Hq' & Heq').
    cbn zeta in Hq', Heq'.
    destruct (run (call_process self <$> inputs) _) as [os w2]. cbn [fst snd] in *.
    exists q'. split; [exact Hq'|].
    rewrite count_failed_cons, Heq'.
    destruct (raised_Exception o); [|lra].
    rewrite Qpower_S by (intros H; discriminate H). lra.
Qed.

(** The same for [collaborate] calls with peers other than the agent:
    0.9 to the number of calls that raised an [Exception]. *)
Lemma run_collaborate_decay (self : AgentRef) (peers : list (AgentRef * PyVal)) :
  Forall (λ p, p.1 ≠ self) peers ->
  ∀ (w : World) (q : Q),
  confidence_of w self = VFloat q ->
  let r := run ((λ p, call_collaborate self p.1 p.2) <$> peers) w in
  ∃ q', confidence_of (snd r) self = VFloat q' ∧
        q' == q * (9 # 10) ^ Z.of_nat (count_failed (fst r)).
Proof.
  induction 1 as [|[other context] peers Hne _ IH]; intros w q Hq; cbn zeta.
  - exists q. split; [done|]. change (q == q * 1). lra.
  - rewrite fmap_cons. cbn [run exec fst snd]. cbn [fst snd] in Hne.
    destruct (void_outcome (collaborate self other context) w) as [_ Hsnd].
    pose proof (void_raised (collaborate self other context) w) as Hraise.
    destruct (collaborate_decay w self other context q Hq)
      as (q2 & _ & Hsame & Hq1).
    rewrite (Hsame Hne) in Hq1. clear q2 Hsame.
    destruct (void (collaborate self other context) w) as [o w1].
    cbn [fst snd] in *. subst w1.
    rewrite <- Hraise in Hq1.
    destruct (IH (snd (collaborate self other context w)) _ Hq1)
      as (q' & Hq' & Heq').
    cbn zeta in Hq', Heq'.
    destruct (run _ (snd (collaborate self other context w))) as [os w2].
    cbn [fst snd] in *.
    exists q'. split; [exact Hq'|].
    rewrite count_failed_cons, Heq'.
    destruct (raised_Exception o); [|lra].
    rewrite Qpower_S by (intros H; discriminate H). lra.
Qed.

End confidence.

(** C1, as the code has it.  A call fails, for the confidence, when it
    raises an error of class [Exception]: that is what the [except] clauses
    catch.  From confidence 1.0, after N consecutive [process] calls that
    all so fail the confidence is 0.8^N; after N consecutive [collaborate]
    calls that all so fail, with peers other than the agent itself, it is
    0.9^N.  A [collaborate] call whose peer is the agent itself and whose
    inner [process] call so fails multiplies the confidence by 0.8 and then
    by 0.9.  A [process] or [collaborate] call that raises an error outside
    [Exception] leaves the confidence of the caller as it was.  And over any
    sequence of [process] and [collaborate] calls, by any agents, no
    confidence that is a non-negative float increases. *)
Theorem confidence_decay (w : World) (self : AgentRef) :
  (confidence_of w self = VFloat 1 ->
   ∀ inputs : list PyVal,
     let r := run (call_process self <$> inputs) w in
     Forall (λ o, raised_Exception o = true) (fst r) ->
     ∃ q, confidence_of (snd r) self = VFloat q ∧
          (q == (8 # 10) ^ Z.of_nat (length inputs))%Q) ∧
  (confidence_of w self = VFloat 1 ->
   ∀ peers : list (AgentRef * PyVal),
     Forall (λ p, p.1 ≠ self) peers ->
     let r := run ((λ p, call_collaborate self p.1 p.2) <$> peers) w in
     Forall (λ o, raised_Exception o = true) (fst r) ->
     ∃ q, confidence_of (snd r) self = VFloat q ∧
          (q == (9 # 10) ^ Z.of_nat (length peers))%Q) ∧
  (∀ (q : Q) (context : PyVal),
     confidence_of w self = VFloat q ->
     let label := VStr (base_agent.collaborate_task
                          (base_agent.class_of (agents w self))
                          +:+ name_of w self) in
     let w1 := snd (update_state self [("current_task", label)] w) in
     raised_Exception (fst (process self context w1)) = true ->
     let r := collaborate self self context w in
     raised_Exception (fst r) = true ∧
     confidence_of (snd r) self = VFloat (q * (8 # 10) * (9 # 10))) ∧
  (∀ (q : Q) (e : PyExc),
     confidence_of w self = VFloat q ->
     is_Exception e = false ->
     (∀ input_data,
        fst (process self input_data w) = Raise e ->
        confidence_of (snd (process self input_data w)) self = VFloat q) ∧
     (∀ other context,
        fst (collaborate self other context w) = Raise e ->
        confidence_of (snd (collaborate self other context w)) self = VFloat q)) ∧
  (∀ calls : list Call,
     forallb is_agent_call calls = true -> no_increase w (snd (run calls w))).
Proof.
  split; [|split; [|split; [|split]]].
  - intros Hq inputs r Hall. subst r.
    destruct (run_process_decay self inputs w 1 Hq) as (q & Hc & Heq).
    cbn zeta in Hc, Heq. exists q. split; [exact Hc|].
    rewrite Heq, (count_failed_all _ Hall), run_length, length_fmap. lra.
  - intros Hq peers Hne r Hall. subst r.
    destruct (run_collaborate_decay self peers Hne w 1 Hq) as (q & Hc & Heq).
    cbn zeta in Hc, Heq. exists q. split; [exact Hc|].
    rewrite Heq, (count_failed_all _ Hall), run_length, length_fmap. lra.
  - intros q context Hq label w1 Hinner r. subst r.
    destruct (collaborate_outcome w self self context q Hq)
      as (q2 & Hq2 & _ & _ & _ & Hcause).
    destruct (collaborate_decay w self self context q Hq)
      as (q2' & Hq2' & _ & Hdecay).
    cbn zeta in Hq2, Hcause. unfold name_of in label. fold label in Hq2, Hq2', Hcause.
    fold w1 in Hq2, Hq2', Hcause.
    assert (Hq1 : confidence_of w1 self = VFloat q).
    { destruct (labelled_store w self self label) as [_ Hl]. cbn zeta in Hl.
      unfold w1. by rewrite Hl. }
    pose proof (process_decay w1 self context q Hq1) as Hp. cbn zeta in Hp.
    rewrite Hinner in Hp. rewrite Hp in Hq2'. injection Hq2' as <-.
    destruct (process self context w1) as [[v|cause] w2]; [discriminate Hinner|].
    cbn [fst raised_Exception] in Hinner. specialize (Hcause cause eq_refl).
    rewrite Hinner in Hcause. rewrite Hcause in Hdecay |- *.
    cbn [raised_Exception] in Hdecay |- *. rewrite is_Exception_failure in Hdecay |- *.
    split; [done|exact Hdecay].
  - intros q e Hq Hexc. split.
    + intros input_data He.
      rewrite (process_decay w self input_data q Hq), He. cbn [raised_Exception].
      by rewrite Hexc.
    + intros other context He.
      destruct (collaborate_outcome w self other context q Hq)
        as (q2 & Hq2 & Hsame & _ & _ & Hcause).
      destruct (collaborate_decay w self other context q Hq)
        as (q2' & Hq2' & _ & Hdecay).
      cbn zeta in Hq2, Hcause. rewrite Hq2 in Hq2'. injection Hq2' as <-.
      rewrite He in Hdecay. cbn [raised_Exception] in Hdecay.
      rewrite Hexc in Hdecay. rewrite Hdecay. f_equal.
      destruct (decide (other = self)) as [->|Hne]; [|by apply Hsame].
      match type of Hq2 with
      | confidence_of (snd (process self context ?w1)) self = _ =>
          assert (Hq1 : confidence_of w1 self = VFloat q);
          [|pose proof (process_decay w1 self context q Hq1) as Hp;
            specialize (Hcause)]
      end.
      { match goal with
        | |- confidence_of (snd (update_state self [("current_task", ?v)] w)) self = _ =>
            destruct (labelled_store w self self v) as [_ ->]
        end. exact Hq. }
      cbn zeta in Hp. rewrite Hq2 in Hp.
      destruct (process self context _) as [[v|cause] w2]; cbn [fst snd raised_Exception] in *.
      * by injection Hp.
      * specialize (Hcause cause eq_refl).
        destruct (is_Exception cause); [|by injection Hp].
        rewrite Hcause in He. injection He as <-.
        by rewrite is_Exception_failure in Hexc.
  - intros calls Hall. by apply no_increase_run.
Qed.

Lemma confidence_decay_witness :
  (∃ q, confidence_of
          (snd (run (call_process 0 <$> [VNone; VStr "again"]) sample_world)) 0
        = VFloat q ∧ (q == (8 # 10) ^ 2)%Q) ∧
  (∃ q, confidence_of
          (snd (run ((λ p, call_collaborate 1 p.1 p.2)
                       <$> [(0%nat, VNone); (0%nat, VDict []); (0%nat, VNone)])
                  sample_world)) 1
        = VFloat q ∧ (q == (9 # 10) ^ 3)%Q) ∧
  confidence_of (snd (collaborate 0 0 VNone sample_world)) 0
  = VFloat (1 * (8 # 10) * (9 # 10)) ∧
  confidence_of (snd (process 0 VNone cancelled_world)) 0 = VFloat 1 ∧
  no_increase sample_world
    (snd (run [call_collaborate 0 0 VNone; call_process 1 VNone] sample_world)).
Proof.
  split; [|split; [|split; [|split]]].
  - apply (proj1 (confidence_decay sample_world 0) eq_refl [VNone; VStr "again"]).
    vm_compute. repeat constructor.
  - apply (proj1 (proj2 (confidence_decay sample_world 1)) eq_refl
             [(0%nat, VNone); (0%nat, VDict []); (0%nat, VNone)]).
    + repeat constructor; discriminate.
    + vm_compute. repeat constructor.
  - apply (proj1 (proj2 (proj2 (confidence_decay sample_world 0))) 1%Q VNone
             eq_refl eq_refl).
  - apply (proj1 (proj1 (proj2 (proj2 (proj2 (confidence_decay cancelled_world 0))))
                    1%Q CancelledError eq_refl eq_refl) VNone eq_refl).
  - apply (proj2 (proj2 (proj2 (proj2 (confidence_decay sample_world 0))))).
    reflexivity.
Defined.

(** C1, as stated, fails when an agent collaborates with itself: the
    Strategist's [process] fails for want of a knowledge base, which
    multiplies its confidence by 0.8, and the [except] clause of
    [collaborate] multiplies it by 0.9 again.  After one failing
    [collaborate] call the confidence is 0.72 and not 0.9. *)
Lemma self_collaboration_decay :
  let r := run [call_collaborate 0 0 VNone] sample_world in
  confidence_of sample_world 0 = VFloat 1 ∧
  Forall (λ o, is_raise o = true) (fst r) ∧
  confidence_of (snd r) 0 = VFloat (1 * (8 # 10) * (9 # 10)) ∧
  ¬ (1 * (8 # 10) * (9 # 10) == (9 # 10) ^ 1)%Q.
Proof.
  cbn zeta. split; [reflexivity|]. split; [|split].
  - vm_compute. repeat constructor.
  - reflexivity.
  - intros H. discriminate H.
Qed.

(** ** The payload of [collaborate] *)

Lemma failed_raises (w : World) (self : AgentRef) (factor : Q)
    (prefix : string) (e : PyExc) :
  ∃ e', fst (failed self factor prefix e w) = Raise e'.
Proof.
  unfold failed, bind, on_agent, base_agent.imul_confidence, raise.
  destruct (base_agent.confidence
              (base_agent.state (base_agent.obj (agents w self))));
    cbn; by eexists.
Qed.

(** An Analyst's [collaborate], when it returns, returns a payload whose
    collaboration metadata records the peer's name and a timestamp. *)
Lemma analyst_collaborate_metadata (w : World) (self other : AgentRef)
    (context payload : PyVal) :
  base_agent.class_of (agents w self) = analyst_agent.AnalystAgent ->
  fst (collaborate self other context w) = Return payload ->
  records_partner_and_timestamp payload (name_of w other).
Proof.
  intros Hcls Hret. rewrite collaborate_unfold in Hret. cbn zeta in Hret.
  rewrite Hcls, update_state_label in Hret. cbn [snd] in Hret.
  set (w1 := set_agents _ w) in Hret.
  assert (Hn1 : name_of w1 other = name_of w other).
  { unfold name_of, w1. cbn.
    match goal with
    | |- context [upd ?a ?x ?h ?b] =>
        destruct (upd_cases a b x h) as [[-> ->]|[? ->]]
    end; done. }
  pose proof (same_classes_process other context w1 other) as (_ & Hp & _).
  destruct (process other context w1) as [[v|e] w2]; cbn [snd] in *.
  - unfold try_except, run_body in Hret. cbn in Hret.
    injection Hret as <-.
    unfold records_partner_and_timestamp. eexists _, _.
    split; [reflexivity|]. split; [|reflexivity].
    cbn. rewrite <- Hn1. unfold name_of. by rewrite Hp.
  - destruct (is_Exception e); [|discriminate Hret].
    destruct (failed_raises w2 self (9 # 10)
                (base_agent.collaborate_failed analyst_agent.AnalystAgent) e)
      as [e' He'].
    rewrite He' in Hret. discriminate Hret.
Qed.

(** C7 at the Strategist.  [StrategistAgent.collaborate] with the Analyst
    as peer sets the label that names the peer, runs the peer's [process]
    (the peer's label is the one its [process] sets) and returns; the
    payload records the peer's name under [collaboration_partner], and has
    no [collaboration_metadata] entry and no timestamp.  The Analyst's own
    [collaborate] on the same store does record both. *)
Theorem strategist_collaborate_payload :
  let r := collaborate 0 1 (VDict []) sample_world in
  ∃ payload,
    fst r = Return payload ∧
    current_task_of (snd r) 0 = VStr "collaboration_with_Analyst" ∧
    current_task_of (snd r) 1 = VStr "data_analysis" ∧
    getitem payload "collaboration_partner" = Some (VStr "Analyst") ∧
    getitem payload "collaboration_metadata" = None ∧
    getitem payload "timestamp" = None ∧
    ¬ records_partner_and_timestamp payload "Analyst" ∧
    ∃ payload',
      fst (collaborate 1 2 (VDict []) sample_world) = Return payload' ∧
      records_partner_and_timestamp payload' "Analyst".
Proof.
  cbn zeta. eexists. split; [vm_compute; reflexivity|].
  split; [reflexivity|]. split; [reflexivity|]. split; [reflexivity|].
  split; [reflexivity|]. split; [reflexivity|]. split.
  - intros (md & ts & Hmd & _). discriminate Hmd.
  - eexists. split; [vm_compute; reflexivity|].
    eexists _, _. repeat split; reflexivity.
Qed.

(** ** The failure that [process] and [collaborate] raise *)




(** * Further properties of the workflow nodes *)

(** ** The iteration counter *)

(** No method counts iterations: [start] assigns 0 and nothing else assigns
    the field, so the counter of every node is 0 in every store that calls
    of public methods reach. *)
Theorem iteration_stays_zero (w : World) :
  reachable w -> ∀ r : NodeRef, base_node.iteration (node_state w r) = 0%Z.
Proof.
  induction 1 as [classes configs time inherited|w c Hw IH]; intros r; [done|].
  destruct (exec_node_state c w r) as [->|[->|[[res ->]|[e ->]]]].
  - apply IH.
  - reflexivity.
  - apply IH.
  - rewrite handle_error_state. apply IH.
Qed.

Lemma iteration_stays_zero_witness :
  reachable completed_world ∧
  base_node.errors (node_state completed_world 0) = ["boom"] ∧
  base_node.iteration (node_state completed_world 0) = 0%Z.
Proof.
  assert (Hr : reachable completed_world).
  { unfold completed_world. do 3 apply reachable_call. apply reachable_fresh. }
  split; [exact Hr|]. split; [reflexivity|].
  apply (iteration_stays_zero completed_world Hr).
Defined.

(** ** Edges *)

Lemma add_next_node_edges (w : World) (a b r : NodeRef) :
  let w' := snd (add_next_node a b w) in
  base_node.next_nodes (nodes w' r)
  = (if decide (r = a) then base_node.next_nodes (nodes w r) ++ [b]
     else base_node.next_nodes (nodes w r)) ∧
  base_node.previous_nodes (nodes w' r)
  = (if decide (r = b) then base_node.previous_nodes (nodes w r) ++ [a]
     else base_node.previous_nodes (nodes w r)).
Proof.
  cbn zeta. unfold add_next_node, bind, get_node, put_node. cbn.
  destruct (decide (r = a)) as [Hra|Hra], (decide (r = b)) as [Hrb|Hrb]; subst.
  - by rewrite !upd_eq.
  - by rewrite (upd_ne b a), !upd_eq by done.
  - by rewrite upd_eq, (upd_ne a b) by done.
  - by rewrite !upd_ne by done.
Qed.

Lemma handle_error_links (e : PyExc) (n : base_node.BaseWorkflowNode) :
  base_node.next_nodes (snd (base_node.handle_error e n)) = base_node.next_nodes n ∧
  base_node.previous_nodes (snd (base_node.handle_error e n))
  = base_node.previous_nodes n ∧
  base_node.participating_agents (snd (base_node.handle_error e n))
  = base_node.participating_agents n.
Proof. unfold base_node.handle_error. by case_match. Qed.

(** What a call makes of the edge lists of a node: nothing, unless it is
    [add_next_node]. *)
Lemma exec_edges (c : Call) (w : World) (r : NodeRef) :
  (∀ a b, c ≠ call_add_next_node a b) ->
  base_node.next_nodes (nodes (snd (exec c w)) r) = base_node.next_nodes (nodes w r) ∧
  base_node.previous_nodes (nodes (snd (exec c w)) r)
  = base_node.previous_nodes (nodes w r).
Proof.
  intros Hc. destruct c; cbn [exec].
  - unfold update_state. by rewrite (same_nodes_on_agent self _ w).
  - by rewrite (same_nodes_void _ (same_nodes_process self input_data) w).
  - by rewrite (same_nodes_void _ (same_nodes_collaborate self other_agent context) w).
  - unfold connect_agent, bind, get_agent, get_node, put_node, ret.
    case_bool_decide; cbn; [|done].
    match goal with
    | |- context [upd ?a ?x ?h ?b] =>
        destruct (upd_cases a b x h) as [[-> ->]|[? ->]]
    end; done.
  - by destruct (Hc self node).
  - by rewrite (same_nodes_void _ (same_nodes_validate_readiness self) w).
  - unfold start, on_node. cbn.
    by destruct (upd_cases self r (base_node.start (nodes w self)) (nodes w))
      as [[-> ->]|[_ ->]].
  - unfold complete, on_node. cbn.
    by destruct (upd_cases self r (base_node.complete results (nodes w self)) (nodes w))
      as [[-> ->]|[_ ->]].
  - unfold handle_error, on_node.
    pose proof (handle_error_links error (nodes w self)) as (Hn & Hp & _).
    destruct (base_node.handle_error error (nodes w self)) as [o n].
    cbn [snd set_nodes nodes] in *.
    destruct (upd_cases self r n (nodes w)) as [[-> ->]|[_ ->]]; done.
Qed.

(** Edges are only ever added in pairs: in every store that calls of public
    methods reach, [B] occurs in [A.next_nodes] exactly as often as [A]
    occurs in [B.previous_nodes]. *)
Theorem edges_stay_mirrored (w : World) : reachable w -> edges_mirrored w.
Proof.
  induction 1 as [classes configs time inherited|w c Hw IH]; intros x y; [done|].
  destruct c as [? ?|? ?|? ? ?|? ?|a b|?|?|? ?|? ?];
    try (match goal with
         | |- context [exec ?c w] =>
             assert (Hc : ∀ a b, c ≠ call_add_next_node a b) by discriminate;
             destruct (exec_edges c w x Hc) as [-> _];
             destruct (exec_edges c w y Hc) as [_ ->]
         end; apply IH).
  cbn [exec].
  destruct (add_next_node_edges w a b x) as [-> _].
  destruct (add_next_node_edges w a b y) as [_ ->].
  specialize (IH x y).
  destruct (decide (x = a)) as [->|Hx], (decide (y = b)) as [->|Hy];
    rewrite ?count_occ_snoc, IH;
    repeat match goal with
    | |- context [Nat.eq_dec ?a ?b] => destruct (Nat.eq_dec a b)
    end; try congruence; lia.
Qed.

Lemma edges_stay_mirrored_witness :
  reachable edged_world ∧
  base_node.next_nodes (nodes edged_world 2) = [2%nat] ∧
  edges_mirrored edged_world.
Proof.
  assert (Hr : reachable edged_world).
  { apply reachable_run, reachable_sample_world. }
  split; [exact Hr|]. split; [reflexivity|].
  apply (edges_stay_mirrored edged_world Hr).
Defined.

(** ** The error budget *)

Lemma outcomes_below_budget (m : Z) (k : nat) :
  (Z.of_nat k < m)%Z ->
  handle_error_outcome_at m <$> seq 0 k = replicate k (Return tt).
Proof.
  induction k as [|k IHk]; intros Hk; [done|].
  rewrite seq_S, fmap_app, IHk by lia. cbn [plus fmap list_fmap].
  unfold handle_error_outcome_at at 1.
  destruct (Z.leb_spec m (Z.of_nat (S k))) as [?|_]; [lia|].
  by rewrite replicate_S_end.
Qed.





(** [start] restores the whole budget and errors do not end the activity:
    whatever the node went through before, after [start()] the next
    [max_iterations - 1] calls of [handle_error] return, and through all of
    them, as through a call that raises, the node stays active and not
    completed, with the messages since the [start] as its error list. *)
Theorem start_restores_budget (w : World) (self : NodeRef) (errs : list PyExc) :
  let m := base_node.max_iterations (base_node.config (nodes w self)) in
  let r := run (call_start self :: (call_handle_error self <$> errs)) w in
  base_node.errors (node_state (snd r) self) = str <$> errs ∧
  base_node.active (node_state (snd r) self) = true ∧
  base_node.completed (node_state (snd r) self) = false ∧
  ((Z.of_nat (length errs) < m)%Z ->
   fst r = replicate (S (length errs)) (Return tt)).
Proof.
  cbn zeta. cbn [run exec].
  set (w1 := snd (start self w)).
  assert (Hs : start self w = (Return tt, w1)) by done.
  rewrite Hs.
  assert (Hst : base_node.state (nodes w1 self)
                = {| base_node.active := true; base_node.completed := false;
                     base_node.iteration := 0; base_node.results := ∅;
                     base_node.errors := [] |}).
  { unfold w1, start, on_node. cbn. by rewrite upd_eq. }
  assert (Hcfg : base_node.config (nodes w1 self) = base_node.config (nodes w self)).
  { unfold w1, start, on_node. cbn. by rewrite upd_eq. }
  assert (Hflags : ∀ errs' w0,
            base_node.active (node_state w0 self) = true ->
            base_node.completed (node_state w0 self) = false ->
            base_node.active
              (node_state (snd (run (call_handle_error self <$> errs') w0)) self) = true ∧
            base_node.completed
              (node_state (snd (run (call_handle_error self <$> errs') w0)) self) = false).
  { induction errs' as [|e errs' IH]; intros w0 Ha Hco; [done|].
    rewrite fmap_cons. cbn [run exec].
    assert (Hs0 : node_state (snd (handle_error self e w0)) self
                  = base_node.set_errors
                      (base_node.errors (node_state w0 self) ++ [str e])
                      (node_state w0 self)).
    { unfold handle_error, on_node, node_state.
      pose proof (handle_error_state e (nodes w0 self)) as H0.
      destruct (base_node.handle_error e (nodes w0 self)) as [o n]. cbn in *.
      by rewrite upd_eq. }
    destruct (handle_error self e w0) as [o w0']. cbn [snd] in Hs0.
    destruct (IH w0') as [Ha' Hc']; [by rewrite Hs0..|].
    by destruct (run _ w0') as [os w2]. }
  destruct (run_handle_error errs w1 self) as [Ho He]. cbn zeta in Ho, He.
  rewrite Hst, Hcfg in Ho. rewrite Hst in He. cbn [base_node.errors length app] in Ho, He.
  destruct (Hflags errs w1) as [Ha Hco]; [unfold node_state; by rewrite Hst..|].
  destruct (run (call_handle_error self <$> errs) w1) as [os w2].
  cbn [fst snd] in *. split; [exact He|]. split; [exact Ha|]. split; [exact Hco|].
  intros Hlt. rewrite Ho, outcomes_below_budget by done. reflexivity.
Qed.

Lemma start_restores_budget_witness :
  let spent := snd (run (call_handle_error 0 <$> [MkExc "Exception" "a" None;
                                                  MkExc "Exception" "b" None;
                                                  MkExc "Exception" "c" None])
                      sample_world) in
  fst (run (call_start 0 :: (call_handle_error 0 <$> [MkExc "Exception" "d" None;
                                                       MkExc "Exception" "e" None]))
         spent)
  = [Return tt; Return tt; Return tt].
Proof.
  cbn zeta.
  apply (start_restores_budget _ 0 [MkExc "Exception" "d" None;
                                    MkExc "Exception" "e" None]).
  reflexivity.
Defined.

(** ** [complete] *)

(** [complete] asks for no prior [start] and keeps the error list: on any
    node it sets [completed], clears [active], stores the results and
    leaves the errors and the iteration counter; a second [complete]
    replaces the results and nothing else, so two calls leave the state that
    the later one alone leaves. *)
Theorem complete_overwrites (w : World) (self : NodeRef)
    (results1 results2 : gmap string PyVal) :
  let w1 := snd (complete self results1 w) in
  let w2 := snd (complete self results2 w1) in
  node_state w2 self
  = {| base_node.active := false; base_node.completed := true;
       base_node.iteration := base_node.iteration (node_state w self);
       base_node.results := results2;
       base_node.errors := base_node.errors (node_state w self) |} ∧
  node_state w2 self = node_state (snd (complete self results2 w)) self ∧
  (∀ r, r ≠ self -> nodes w2 r = nodes w r).
Proof.
  cbn zeta. unfold complete, on_node, node_state. cbn.
  rewrite !upd_eq. repeat split.
  intros r Hne. by rewrite !upd_ne.
Qed.

(** ** Readiness along an edge *)

Lemma validate_readiness_bound (w : World) (self : NodeRef) :
  all_bound w self ->
  ∃ b : bool,
    validate_readiness self w = (Return b, w) ∧
    (b = true ↔
     ∀ p, p ∈ base_node.previous_nodes (nodes w self) ->
          base_node.completed (node_state w p) = true).
Proof.
  intros Hall. unfold validate_readiness, bind, get_node, raise.
  rewrite bool_decide_eq_false_2; [apply previous_completed_spec|].
  intros Hne. apply Hne. apply set_eq. intros r.
  rewrite elem_of_difference, elem_of_list_to_set, elem_of_dom.
  split; [intros [Hr Hout]; by apply Hall in Hr|intros Hr; by inversion Hr].
Qed.

Lemma validate_readiness_not_ready (w : World) (self p : NodeRef) :
  p ∈ base_node.previous_nodes (nodes w self) ->
  base_node.completed (node_state w p) = false ->
  fst (validate_readiness self w) ≠ Return true.
Proof.
  intros Hp Hc. unfold validate_readiness, bind, get_node, raise.
  case_bool_decide; [done|].
  destruct (previous_completed_spec w (base_node.previous_nodes (nodes w self)))
    as (b & -> & Hiff).
  cbn. intros [= ->]. rewrite (proj1 Hiff eq_refl p Hp) in Hc. discriminate Hc.
Qed.

(** A predecessor gates its successor: once [A] is started, no node that
    has [A] among its predecessors is ready ([validate_readiness] raises or
    returns false), [A] itself included when it has an edge to itself; and
    when [A] completes, a node whose agents are all bound and whose other
    predecessors are completed is ready. *)
Theorem predecessor_gates (w : World) (A B : NodeRef) :
  A ∈ base_node.previous_nodes (nodes w B) ->
  fst (validate_readiness B (snd (start A w))) ≠ Return true ∧
  (all_bound w B ->
   (∀ p, p ∈ base_node.previous_nodes (nodes w B) ->
         p = A ∨ base_node.completed (node_state w p) = true) ->
   ∀ results, fst (validate_readiness B (snd (complete A results w))) = Return true).
Proof.
  intros HA. split.
  - apply (validate_readiness_not_ready _ B A).
    + unfold start, on_node. cbn.
      by destruct (upd_cases A B (base_node.start (nodes w A)) (nodes w))
        as [[-> ->]|[_ ->]].
    + unfold start, on_node, node_state. cbn. by rewrite upd_eq.
  - intros Hall Hprev results.
    set (w' := snd (complete A results w)).
    assert (Hlinks : base_node.previous_nodes (nodes w' B)
                     = base_node.previous_nodes (nodes w B) ∧
                     base_node.config (nodes w' B) = base_node.config (nodes w B) ∧
                     bound_agents w' B = bound_agents w B).
    { unfold w', complete, on_node, bound_agents. cbn.
      by destruct (upd_cases A B (base_node.complete results (nodes w A)) (nodes w))
        as [[-> ->]|[_ ->]]. }
    destruct Hlinks as (Hp & Hcfg & Hb).
    destruct (validate_readiness_bound w' B) as (b & Hv & Hiff).
    { intros r Hr. rewrite Hb. apply Hall. by rewrite <- Hcfg. }
    rewrite Hv. cbn. f_equal. apply Hiff. intros p Hin. rewrite Hp in Hin.
    unfold w', complete, on_node, node_state. cbn.
    destruct (upd_cases A p (base_node.complete results (nodes w A)) (nodes w))
      as [[-> ->]|[Hne ->]]; [done|].
    destruct (Hprev p Hin) as [->|Hc]; [done|exact Hc].
Qed.

Lemma predecessor_gates_witness :
  let w := snd (run [call_add_next_node 0 1; call_connect_agent 1 1] sample_world) in
  fst (validate_readiness 1 (snd (start 0 w))) = Return false ∧
  fst (validate_readiness 1 (snd (complete 0 ∅ w))) = Return true ∧
  fst (validate_readiness 2 (snd (start 2 edged_world))) ≠ Return true.
Proof.
  cbn zeta. split; [reflexivity|]. split.
  - apply (predecessor_gates _ 0 1).
    + apply list_elem_of_singleton. reflexivity.
    + intros r Hr. apply list_elem_of_singleton in Hr as ->. by eexists.
    + intros p Hp. left. by apply list_elem_of_singleton in Hp.
  - apply (predecessor_gates edged_world 2 2).
    apply list_elem_of_singleton. reflexivity.
Defined.

(** ** Binding agents *)

Lemma connect_agent_effect (w : World) (self : NodeRef) (agent : AgentRef) :
  let w' := snd (connect_agent self agent w) in
  agents w' = agents w ∧
  base_node.config (nodes w' self) = base_node.config (nodes w self) ∧
  bound_agents w' self
  = (if bool_decide (agent_key w agent
                     ∈ base_node.required_agents (base_node.config (nodes w self)))
     then <[agent_key w agent := agent]> (bound_agents w self)
     else bound_agents w self).
Proof.
  cbn zeta. unfold connect_agent, bind, get_agent, get_node, put_node, ret,
    bound_agents, agent_key.
  case_bool_decide; cbn; [|done]. by rewrite upd_eq.
Qed.

Lemma run_connect_agents (ags : list AgentRef) :
  ∀ (w : World) (self : NodeRef),
  let w' := snd (run (call_connect_agent self <$> ags) w) in
  agents w' = agents w ∧
  base_node.config (nodes w' self) = base_node.config (nodes w self) ∧
  (∀ r, r ∈ base_node.required_agents (base_node.config (nodes w self)) ->
        is_Some (bound_agents w self !! r) ∨ (∃ a, a ∈ ags ∧ agent_key w a = r) ->
        is_Some (bound_agents w' self !! r)) ∧
  (∀ r a, bound_agents w' self !! r = Some a ->
          bound_agents w self !! r = Some a ∨ (a ∈ ags ∧ agent_key w a = r)).
Proof.
  induction ags as [|a0 ags IH]; intros w self; cbn zeta.
  - cbn. split; [done|]. split; [done|]. split.
    + intros r _ [H|(a & Ha & _)]; [done|by apply elem_of_nil in Ha].
    + intros r a H. by left.
  - rewrite fmap_cons. cbn [run exec].
    destruct (connect_agent_effect w self a0) as (Hag & Hcfg & Hb).
    cbn zeta in Hag, Hcfg, Hb.
    destruct (connect_agent self a0 w) as [o w1]. cbn [snd] in *.
    destruct (IH w1 self) as (Hag' & Hcfg' & Hsome & Hsound). cbn zeta in *.
    destruct (run (call_connect_agent self <$> ags) w1) as [os w2]. cbn [snd] in *.
    assert (Hkey : ∀ a, agent_key w1 a = agent_key w a).
    { intros a. unfold agent_key. by rewrite Hag. }
    split; [congruence|]. split; [congruence|]. split.
    + intros r Hr Hcase. apply Hsome; [by rewrite Hcfg|].
      destruct Hcase as [Hs|(a & Ha & Hk)].
      * left. rewrite Hb. case_bool_decide; [|done].
        destruct (decide (agent_key w a0 = r)) as [->|Hne].
        -- rewrite lookup_insert_eq. by eexists.
        -- by rewrite lookup_insert_ne.
      * apply elem_of_cons in Ha as [->|Ha].
        -- left. rewrite Hb, bool_decide_eq_true_2 by (by rewrite Hk).
           rewrite Hk, lookup_insert_eq. by eexists.
        -- right. exists a. by rewrite Hkey.
    + intros r a Hra. destruct (Hsound r a Hra) as [H1|[Ha Hk]].
      * rewrite Hb in H1. case_bool_decide; [|by left].
        destruct (decide (agent_key w a0 = r)) as [Heq|Hne].
        -- rewrite Heq, lookup_insert_eq in H1. injection H1 as <-.
           right. split; [by left|done].
        -- rewrite lookup_insert_ne in H1 by done. by left.
      * right. split; [by right|]. by rewrite <- Hkey.
Qed.

(** Connecting is enough to get past the agent check: if every required
    name is the lowercased personality name of one of the agents offered,
    then after connecting them all [validate_readiness] does not raise; and
    no binding appears that was not there before other than an agent offered,
    under its lowercased name. *)
Theorem connect_then_ready (w : World) (self : NodeRef) (ags : list AgentRef) :
  (∀ r, r ∈ base_node.required_agents (base_node.config (nodes w self)) ->
        ∃ a, a ∈ ags ∧ agent_key w a = r) ->
  let w' := snd (run (call_connect_agent self <$> ags) w) in
  (∃ b : bool, validate_readiness self w' = (Return b, w')) ∧
  (∀ r a, bound_agents w' self !! r = Some a ->
          bound_agents w self !! r = Some a ∨ (a ∈ ags ∧ agent_key w a = r)).
Proof.
  intros Hcover. cbn zeta.
  destruct (run_connect_agents ags w self) as (_ & Hcfg & Hsome & Hsound).
  cbn zeta in *. split; [|exact Hsound].
  destruct (validate_readiness_bound
              (snd (run (call_connect_agent self <$> ags) w)) self)
    as (b & Hv & _).
  - intros r Hr. rewrite Hcfg in Hr. apply Hsome; [done|]. right. by apply Hcover.
  - by exists b.
Qed.

Lemma connect_then_ready_witness :
  ∃ b : bool,
    fst (validate_readiness 1
           (snd (run (call_connect_agent 1 <$> [0; 3; 1]%nat) sample_world)))
    = Return b.
Proof.
  destruct (connect_then_ready sample_world 1 [0; 3; 1]%nat) as [(b & Hb) _].
  - intros r Hr. apply list_elem_of_singleton in Hr as ->.
    exists 3%nat. split; [|reflexivity].
    apply elem_of_cons. right. apply elem_of_cons. by left.
  - exists b. by rewrite Hb.
Defined.

(** Names that differ only in case share one key, and the later agent takes
    it: after two [connect_agent] calls for agents whose lowercased names
    are the same required name, the key holds the second agent, and the
    bindings are those that connecting the second alone would leave. *)
Theorem connect_agent_last_wins (w : World) (self : NodeRef) (a1 a2 : AgentRef) :
  agent_key w a1 = agent_key w a2 ->
  agent_key w a2 ∈ base_node.required_agents (base_node.config (nodes w self)) ->
  let w2 := snd (run [call_connect_agent self a1; call_connect_agent self a2] w) in
  bound_agents w2 self !! agent_key w a2 = Some a2 ∧
  bound_agents w2 self = bound_agents (snd (connect_agent self a2 w)) self.
Proof.
  intros Hk Hreq. cbn zeta. cbn [run exec].
  destruct (connect_agent_effect w self a1) as (Hag1 & Hcfg1 & Hb1).
  destruct (connect_agent_effect w self a2) as (_ & _ & Hb2).
  cbn zeta in *. rewrite Hb2, bool_decide_eq_true_2 by done.
  rewrite Hk, bool_decide_eq_true_2 in Hb1 by done.
  destruct (connect_agent self a1 w) as [o1 w1]. cbn [snd] in *.
  destruct (connect_agent_effect w1 self a2) as (_ & _ & Hb12). cbn zeta in Hb12.
  assert (Hkey : agent_key w1 a2 = agent_key w a2).
  { unfold agent_key. by rewrite Hag1. }
  rewrite Hkey, Hcfg1, bool_decide_eq_true_2 in Hb12 by done.
  destruct (connect_agent self a2 w1) as [o2 w2]. cbn [snd] in *.
  rewrite Hb12, Hb1, insert_insert_eq. split; [apply lookup_insert_eq|done].
Qed.

Lemma connect_agent_last_wins_witness :
  bound_agents
    (snd (run [call_connect_agent 1 1; call_connect_agent 1 2] sample_world)) 1
    !! "analyst"
  = Some 2%nat.
Proof.
  apply (connect_agent_last_wins sample_world 1 1 2 eq_refl).
  apply list_elem_of_singleton. reflexivity.
Defined.

(** * Further properties of the agents *)

(** ** What [process] and [collaborate] leave alone *)







(** ** The Analyst *)

(** [AnalystAgent.process] cannot fail: none of its phases can raise, so on
    every input and in every state it returns.  The payload carries the
    reading of the clock and the agent's confidence as it is, the payload
    becomes [current_analysis] and is appended to [analysis_history], and
    the confidence does not change: an Analyst's confidence never decays
    through its own [process]. *)
Theorem analyst_process_returns (w : World) (self : AgentRef) (input_data : PyVal) :
  base_agent.class_of (agents w self) = analyst_agent.AnalystAgent ->
  let r := process self input_data w in
  let me := base_agent.obj (agents (snd r) self) in
  ∃ payload,
    fst r = Return payload ∧
    getitem payload "timestamp" = Some (VStr (clock w (ticks w))) ∧
    getitem payload "confidence_score" = Some (confidence_of w self) ∧
    confidence_of (snd r) self = confidence_of w self ∧
    analyst_agent.current_analysis me = payload ∧
    analyst_agent.analysis_history me
    = analyst_agent.analysis_history (base_agent.obj (agents w self)) ++ [payload] ∧
    ticks (snd r) = S (ticks w).
Proof.
  intros Hcls. cbn zeta. rewrite process_unfold. cbn zeta.
  rewrite Hcls, update_state_label. unfold confidence_of.
  unfold try_except, run_body. cbn. rewrite !upd_eq. cbn.
  eexists. split; [reflexivity|].
  rewrite Nat.add_0_r, Nat.add_1_r.
  split; [reflexivity|]. split; [reflexivity|]. split; [reflexivity|].
  unfold analyst_agent.current_analysis, analyst_agent.analysis_history. cbn.
  rewrite lookup_insert_eq, lookup_insert_ne, lookup_insert_eq by done.
  done.
Qed.

Lemma analyst_process_returns_witness :
  ∃ payload,
    fst (process 1 (VStr "sales") sample_world) = Return payload ∧
    getitem payload "timestamp" = Some (VStr (sample_time 0)) ∧
    confidence_of (snd (process 1 (VStr "sales") sample_world)) 1 = VFloat 1.
Proof.
  destruct (analyst_process_returns sample_world 1 (VStr "sales") eq_refl)
    as (payload & Hr & Ht & _ & Hc & _).
  exists payload. split; [exact Hr|]. split; [exact Ht|exact Hc].
Defined.

(** An Analyst's [collaborate] fails exactly when the peer's [process]
    fails: nothing it does with the peer's result can raise. *)
Theorem analyst_collaborate_fails_iff (w : World) (self other : AgentRef)
    (context : PyVal) :
  base_agent.class_of (agents w self) = analyst_agent.AnalystAgent ->
  let w1 := snd (update_state self
                   [("current_task",
                     VStr ("collaboration_with_" +:+ name_of w other))] w) in
  is_raise (fst (collaborate self other context w))
  = is_raise (fst (process other context w1)).
Proof.
  intros Hcls. cbn zeta. rewrite collaborate_unfold. cbn zeta. rewrite Hcls.
  change (base_agent.collaborate_task analyst_agent.AnalystAgent)
    with "collaboration_with_".
  unfold name_of.
  destruct (process other context _) as [[v|e] w2]; cbn [fst].
  - unfold try_except, run_body. reflexivity.
  - destruct (is_Exception e); [|reflexivity].
    destruct (failed_raises w2 self (9 # 10)
                (base_agent.collaborate_failed analyst_agent.AnalystAgent) e)
      as [e' ->].
    reflexivity.
Qed.

Lemma analyst_collaborate_fails_iff_witness :
  is_raise (fst (collaborate 1 0 VNone sample_world)) = true ∧
  is_raise (fst (collaborate 1 2 VNone sample_world)) = false.
Proof.
  split.
  - rewrite (analyst_collaborate_fails_iff sample_world 1 0 VNone eq_refl).
    reflexivity.
  - rewrite (analyst_collaborate_fails_iff sample_world 1 2 VNone eq_refl).
    reflexivity.
Defined.

(** ** The Strategist *)

Lemma strategist_process_fails (w : World) (self : AgentRef) (input_data : PyVal)
    (q : Q) :
  base_agent.class_of (agents w self) = strategist_agent.StrategistAgent ->
  base_agent.knowledge_base (base_agent.obj (agents w self)) = None ->
  confidence_of w self = VFloat q ->
  fst (process self input_data w)
  = Raise (failure "Strategic analysis failed"
             (MkExc "ValueError" "Knowledge base not initialized" None)) ∧
  confidence_of (snd (process self input_data w)) self = VFloat (q * (8 # 10)).
Proof.
  intros Hcls Hkb Hq.
  destruct (process_outcome w self input_data q Hq) as (_ & _ & Hm).
  cbn zeta in Hm. rewrite Hcls in Hm.
  unfold base_agent.process_try, strategist_agent.StrategistAgent,
    strategist_agent.process_try, strategist_agent._analyze_context,
    base_agent.access_knowledge_base in Hm.
  cbn in Hm. rewrite Hkb in Hm. exact Hm.
Qed.

(** A Strategist without a knowledge base cannot succeed: [process] fails
    on every input at its first phase, and nothing in the repository
    assigns [knowledge_base].  Over any run of [process] calls every call
    raises and the confidence, if it was the float [q], ends at [q] times
    0.8 to the number of calls. *)
Theorem strategist_needs_knowledge_base (w : World) (self : AgentRef) (q : Q)
    (inputs : list PyVal) :
  base_agent.class_of (agents w self) = strategist_agent.StrategistAgent ->
  base_agent.knowledge_base (base_agent.obj (agents w self)) = None ->
  confidence_of w self = VFloat q ->
  let r := run (call_process self <$> inputs) w in
  Forall (λ o, is_raise o = true) (fst r) ∧
  (∀ i, fst (process self i w)
        = Raise (failure "Strategic analysis failed"
                   (MkExc "ValueError" "Knowledge base not initialized" None))) ∧
  ∃ q', confidence_of (snd r) self = VFloat q' ∧
        (q' == q * (8 # 10) ^ Z.of_nat (length inputs))%Q.
Proof.
  intros Hcls Hkb Hq. cbn zeta.
  assert (Hall : Forall (λ o, raised_Exception o = true)
                   (fst (run (call_process self <$> inputs) w))).
  { revert w q Hcls Hkb Hq. induction inputs as [|i inputs IH];
      intros w q Hcls Hkb Hq; [constructor|].
    rewrite fmap_cons. cbn [run exec].
    destruct (void_outcome (process self i) w) as [_ Hsnd].
    pose proof (void_raised (process self i) w) as Hraise.
    destruct (strategist_process_fails w self i q Hcls Hkb Hq) as [Hf Hc].
    destruct (same_classes_process self i w self) as (Hc' & _ & Hk').
    destruct (void (process self i) w) as [o w1]. cbn [fst snd] in *. subst w1.
    rewrite Hf in Hraise. cbn [raised_Exception] in Hraise.
    rewrite is_Exception_failure in Hraise.
    specialize (IH (snd (process self i w)) (q * (8 # 10))%Q).
    rewrite Hc', Hk' in IH. specialize (IH Hcls Hkb Hc).
    destruct (run (call_process self <$> inputs) _) as [os w2]. cbn [fst] in *.
    by constructor. }
  split; [|split].
  - eapply Forall_impl; [exact Hall|]. by intros [v|e].
  - intros i. by apply (strategist_process_fails w self i q).
  - destruct (run_process_decay self inputs w q Hq) as (q' & Hc & Heq).
    cbn zeta in Hc, Heq. exists q'. split; [exact Hc|].
    by rewrite Heq, (count_failed_all _ Hall), run_length, length_fmap.
Qed.

Lemma strategist_needs_knowledge_base_witness :
  Forall (λ o, is_raise o = true)
    (fst (run (call_process 0 <$> [VNone; VStr "plan"; VDict []]) sample_world)) ∧
  ∃ q', confidence_of
          (snd (run (call_process 0 <$> [VNone; VStr "plan"; VDict []])
                  sample_world)) 0
        = VFloat q' ∧ (q' == 1 * (8 # 10) ^ 3)%Q.
Proof.
  destruct (strategist_needs_knowledge_base sample_world 0 1
              [VNone; VStr "plan"; VDict []] eq_refl eq_refl eq_refl)
    as (Hall & _ & Hq).
  split; [exact Hall|exact Hq].
Defined.

Lemma dict_get_set (d : list (string * PyVal)) (k : string) (v : PyVal) :
  dict_get (dict_set d k v) k = Some v.
Proof.
  induction d as [|[k' v'] d IH]; cbn.
  - by rewrite String.eqb_refl.
  - destruct (String.eqb_spec k k') as [->|Hne]; cbn.
    + by rewrite String.eqb_refl.
    + by apply String.eqb_neq in Hne as ->.
Qed.

(** With a knowledge base that answers, the Strategist's [process] returns:
    the plan it formulates always selects the first approach
    ([innovative]), its id is the number of plans held plus one, written in
    decimal, the plan is filed under that id in [strategic_plans], and the
    confidence is untouched.  With a knowledge base that raises an
    [Exception], [process] raises what the [except] clause makes of that
    error and multiplies a float confidence by 0.8; an error of the
    knowledge base that is not an [Exception] reaches the caller as it is
    and the confidence stays. *)
Theorem strategist_files_plan (w : World) (self : AgentRef) (input_data : PyVal)
    (kb : base_agent.KnowledgeBase) :
  base_agent.class_of (agents w self) = strategist_agent.StrategistAgent ->
  base_agent.knowledge_base (base_agent.obj (agents w self)) = Some kb ->
  let r := process self input_data w in
  let plans := strategist_agent.strategic_plans (base_agent.obj (agents w self)) in
  let plan_id := pretty (length plans + 1)%nat in
  (∀ knowledge, base_agent.query kb "strategic_context" = Return knowledge ->
     ∃ payload plan,
       fst r = Return payload ∧
       getitem payload "plan_id" = Some (VStr plan_id) ∧
       getitem payload "strategic_plan" = Some plan ∧
       getitem plan "selected_approach" = Some (VStr "innovative") ∧
       dict_get (strategist_agent.strategic_plans
                   (base_agent.obj (agents (snd r) self))) plan_id = Some plan ∧
       confidence_of (snd r) self = confidence_of w self) ∧
  (∀ e q, base_agent.query kb "strategic_context" = Raise e ->
     confidence_of w self = VFloat q ->
     if is_Exception e
     then fst r = Raise (failure "Strategic analysis failed" e) ∧
          confidence_of (snd r) self = VFloat (q * (8 # 10))
     else fst r = Raise e ∧ confidence_of (snd r) self = VFloat q).
Proof.
  intros Hcls Hkb. cbn zeta. split.
  - intros knowledge Hk. rewrite process_unfold. cbn zeta.
    rewrite Hcls, update_state_label. unfold confidence_of.
    unfold try_except, run_body. cbn. rewrite !upd_eq. cbn.
    unfold strategist_agent.process_try, strategist_agent._analyze_context,
      base_agent.access_knowledge_base. cbn. rewrite Hkb, Hk. cbn.
    rewrite ?upd_eq. cbn.
    eexists _, _. split; [reflexivity|]. split; [reflexivity|].
    split; [reflexivity|]. split; [reflexivity|]. split; [|reflexivity].
    unfold strategist_agent.strategic_plans at 1. cbn.
    rewrite lookup_insert_eq. apply dict_get_set.
  - intros e q He Hq.
    destruct (process_outcome w self input_data q Hq) as (_ & _ & Hm).
    cbn zeta in Hm. rewrite Hcls in Hm.
    unfold base_agent.process_try, strategist_agent.StrategistAgent,
      strategist_agent.process_try, strategist_agent._analyze_context,
      base_agent.access_knowledge_base in Hm.
    cbn in Hm. rewrite Hkb, He in Hm. cbn in Hm. exact Hm.
Qed.

Lemma strategist_files_plan_witness :
  (∃ payload plan,
     fst (process 0 VNone equipped_world) = Return payload ∧
     getitem payload "plan_id" = Some (VStr "1") ∧
     dict_get (strategist_agent.strategic_plans
                 (base_agent.obj (agents (snd (process 0 VNone equipped_world)) 0)))
       "1" = Some plan) ∧
  fst (process 0 VNone cancelled_world) = Raise CancelledError ∧
  confidence_of (snd (process 0 VNone cancelled_world)) 0 = VFloat 1.
Proof.
  split.
  - destruct (proj1 (strategist_files_plan equipped_world 0 VNone
                       echo_knowledge_base eq_refl eq_refl)
                (VStr "strategic_context") eq_refl)
      as (payload & plan & Hr & Hid & _ & _ & Hget & _).
    exists payload, plan. split; [exact Hr|]. split; [exact Hid|exact Hget].
  - exact (proj2 (strategist_files_plan cancelled_world 0 VNone
                    cancelled_knowledge_base eq_refl eq_refl)
             CancelledError 1%Q eq_refl eq_refl).
Defined.

(** ** Collaboration and the peer *)

Lemma failed_frame (w : World) (self r' : AgentRef) (factor : Q)
    (prefix : string) (e : PyExc) :
  r' ≠ self -> agents (snd (failed self factor prefix e w)) r' = agents w r'.
Proof.
  intros Hne. unfold failed, bind, on_agent, raise.
  destruct (base_agent.imul_confidence _ _ _) as [[u|e'] a]; cbn;
    by rewrite upd_ne.
Qed.

Lemma collaborate_peer_state (w : World) (self other : AgentRef) (context : PyVal) :
  other ≠ self ->
  let cls := base_agent.class_of (agents w self) in
  let w1 := snd (update_state self
                   [("current_task",
                     VStr (base_agent.collaborate_task cls +:+ name_of w other))] w) in
  agents (snd (collaborate self other context w)) other
  = agents (snd (process other context w1)) other.
Proof.
  intros Hne. cbn zeta. rewrite collaborate_unfold. cbn zeta. unfold name_of.
  destruct (process other context _) as [[v|e] w2]; cbn [snd].
  - unfold try_except.
    match goal with
    | |- context [run_body self ?body w2] =>
        destruct (run_body_agents w2 self body) as (_ & _ & Hfr);
        destruct (run_body self body w2) as [[v'|e'] w3]
    end; cbn [snd] in *.
    + by apply Hfr.
    + destruct (is_Exception e'); cbn [snd];
        [rewrite failed_frame by done|]; by apply Hfr.
  - destruct (is_Exception e); [by apply failed_frame|done].
Qed.

(** One failure, two penalties.  When an agent collaborates with another
    agent and the [try:] block of the peer's [process] raises an
    [Exception], the peer's confidence is multiplied by 0.8 and the
    caller's by 0.9, and the error the caller's caller sees wraps the
    peer's message in the caller's; when it raises an error that is not an
    [Exception], neither [except] clause catches it: the error reaches the
    caller's caller as it is and both confidences stay; when the peer's
    [process] returns, the peer's confidence is as before.  In every case
    the peer's task label is the one its [process] sets. *)
Theorem collaborate_joint_decay (w : World) (self other : AgentRef)
    (context : PyVal) (q p : Q) :
  other ≠ self ->
  confidence_of w self = VFloat q ->
  confidence_of w other = VFloat p ->
  let cls := base_agent.class_of (agents w self) in
  let peer := base_agent.class_of (agents w other) in
  let b := base_agent.process_try peer
             (with_task (VStr (base_agent.process_task peer))
                (base_agent.obj (agents w other)))
             context (fun i => clock w (ticks w + i)%nat) in
  let r := collaborate self other context w in
  current_task_of (snd r) other = VStr (base_agent.process_task peer) ∧
  match base_agent.outcome b with
  | Raise cause =>
      if is_Exception cause
      then fst r = Raise (failure (base_agent.collaborate_failed cls)
                            (failure (base_agent.process_failed peer) cause)) ∧
           confidence_of (snd r) self = VFloat (q * (9 # 10)) ∧
           confidence_of (snd r) other = VFloat (p * (8 # 10))
      else fst r = Raise cause ∧
           confidence_of (snd r) self = VFloat q ∧
           confidence_of (snd r) other = VFloat p
  | Return v => confidence_of (snd r) other = VFloat p
  end.
Proof.
  intros Hne Hq Hp. cbn zeta.
  pose proof (collaborate_peer_state w self other context Hne) as Hpeer.
  destruct (collaborate_outcome w self other context q Hq)
    as (q2 & _ & Hsame & _ & Hm & Hcause).
  cbn zeta in Hpeer, Hm, Hcause. rewrite (Hsame Hne) in Hm. clear q2 Hsame.
  unfold name_of in Hpeer.
  set (w1 := snd (update_state self _ w)) in *.
  assert (Ho1 : agents w1 other = agents w other).
  { unfold w1. rewrite update_state_label. cbn. by rewrite upd_ne. }
  assert (Hp1 : confidence_of w1 other = VFloat p).
  { unfold confidence_of in *. by rewrite Ho1. }
  destruct (process_outcome w1 other context p Hp1) as (_ & Ht & Hb).
  cbn zeta in Ht, Hb. rewrite Ho1 in Ht, Hb.
  change (clock w1) with (clock w) in Hb. change (ticks w1) with (ticks w) in Hb.
  unfold confidence_of, current_task_of in *. rewrite Hpeer.
  split; [exact Ht|].
  destruct (base_agent.outcome _) as [v|cause].
  - by destruct Hb as [_ Hc].
  - destruct (is_Exception cause) eqn:Hexc; destruct Hb as [Hr Hc];
      specialize (Hcause _ Hr); rewrite ?is_Exception_failure, ?Hexc in Hcause;
      (split; [exact Hcause|]); (split; [|exact Hc]).
    + destruct Hm as [(v & Hv & _)|[(cause' & _ & _ & Hc')|(e & He & Hv & _)]];
        [congruence|exact Hc'|].
      rewrite Hcause in Hv. injection Hv as <-.
      by rewrite is_Exception_failure in He.
    + destruct Hm as [(v & Hv & _)|[(cause' & _ & Hv & _)|(e & _ & _ & Hc')]];
        [congruence| |exact Hc'].
      rewrite Hcause in Hv. injection Hv as ->.
      by rewrite is_Exception_failure in Hexc.
Qed.

Lemma collaborate_joint_decay_witness :
  (let r := collaborate 1 0 VNone sample_world in
   confidence_of (snd r) 1 = VFloat (1 * (9 # 10)) ∧
   confidence_of (snd r) 0 = VFloat (1 * (8 # 10)) ∧
   current_task_of (snd r) 0 = VStr "strategic_analysis") ∧
  (let r := collaborate 1 0 VNone cancelled_world in
   fst r = Raise CancelledError ∧
   confidence_of (snd r) 1 = VFloat 1 ∧
   confidence_of (snd r) 0 = VFloat 1).
Proof.
  split.
  - destruct (collaborate_joint_decay sample_world 1 0 VNone 1 1
                ltac:(discriminate) eq_refl eq_refl) as [Ht Hm].
    cbn zeta in *. split; [exact (proj1 (proj2 Hm))|].
    split; [exact (proj2 (proj2 Hm))|exact Ht].
  - exact (proj2 (collaborate_joint_decay cancelled_world 1 0 VNone 1 1
                    ltac:(discriminate) eq_refl eq_refl)).
Defined.

(** ** The Challenger *)




(** ** Labels and non-numeric confidence *)

(** An agent that collaborates with itself does not keep the label that
    names the peer: the inner [process] call overwrites it with the
    [process] label, and nothing sets it back. *)
Theorem self_collaboration_label (w : World) (self : AgentRef) (context : PyVal)
    (q : Q) :
  confidence_of w self = VFloat q ->
  current_task_of (snd (collaborate self self context w)) self
  = VStr (base_agent.process_task (base_agent.class_of (agents w self))).
Proof.
  intros Hq. rewrite collaborate_unfold. cbn zeta.
  match goal with
  | |- context [update_state self [("current_task", ?v)] w] =>
      destruct (labelled_store w self self v) as [Hc1 Hq1];
      set (w1 := snd (update_state self [("current_task", v)] w)) in *
  end.
  cbn zeta in Hc1, Hq1. rewrite Hq in Hq1.
  destruct (process_outcome w1 self context q Hq1) as (_ & Ht & _).
  pose proof (process_decay w1 self context q Hq1) as Hq2.
  cbn zeta in Ht, Hq2. rewrite Hc1 in Ht.
  destruct (process self context w1) as [[v|e] w2]; cbn [fst snd] in *.
  - unfold try_except.
    match goal with
    | |- context [run_body self ?body w2] =>
        destruct (run_body_agents w2 self body) as (_ & Hst & _);
        destruct (run_body self body w2) as [[v'|e'] w3]
    end; cbn [fst snd] in *.
    + unfold current_task_of in *. by rewrite Hst.
    + assert (Hq3 : confidence_of w3 self = VFloat q).
      { unfold confidence_of in *. by rewrite Hst. }
      destruct (is_Exception e'); cbn [snd].
      * destruct (failed_float w3 self (9 # 10) q
                    (base_agent.collaborate_failed
                       (base_agent.class_of (agents w self))) e' Hq3)
          as (_ & _ & Hl & _).
        cbn zeta in Hl. rewrite Hl. unfold current_task_of in *. by rewrite Hst.
      * unfold current_task_of in *. by rewrite Hst.
  - destruct (is_Exception e); cbn [snd] in *; [|exact Ht].
    destruct (failed_float w2 self (9 # 10) _
                (base_agent.collaborate_failed
                   (base_agent.class_of (agents w self))) e Hq2)
      as (_ & _ & Hl & _).
    cbn zeta in Hl. by rewrite Hl.
Qed.

Lemma self_collaboration_label_witness :
  current_task_of (snd (collaborate 1 1 VNone sample_world)) 1
  = VStr "data_analysis".
Proof. apply (self_collaboration_label sample_world 1 VNone 1 eq_refl). Defined.



(** ** [update_state] and [reflect] on one agent object *)

Lemma setattr_method (inherited : string -> bool) (st : base_agent.AgentState)
    (key : string) (value : PyVal) :
  key ∈ base_agent.BaseModel_attrs ->
  base_agent.hasattr inherited st key = true ∧
  base_agent.setattr st key value = Raise (base_agent.no_field key).
Proof.
  intros H. split.
  - unfold base_agent.hasattr, base_agent.other_attr.
    rewrite (bool_decide_eq_true_2 _ H). cbn. apply orb_true_r.
  - unfold base_agent.BaseModel_attrs in H.
    repeat (apply elem_of_cons in H as [->|H]; [reflexivity|]).
    by apply elem_of_nil in H.
Qed.

Lemma update_state_items_prefix (inherited : string -> bool)
    (pre : list (string * PyVal)) :
  ∀ st : base_agent.AgentState,
  Forall (λ kv, kv.1 ∉ base_agent.AgentState_fields ->
                base_agent.other_attr inherited kv.1 = false) pre ->
  ∃ st', base_agent.update_state_items inherited pre st = (Return tt, st') ∧
         ∀ rest, base_agent.update_state_items inherited (pre ++ rest) st
                 = base_agent.update_state_items inherited rest st'.
Proof.
  induction pre as [|[k v] pre IH]; intros st Hattrs.
  - by exists st.
  - apply Forall_cons in Hattrs as [Hk Hattrs]. cbn in Hk.
    cbn [app base_agent.update_state_items].
    destruct (decide (k ∈ base_agent.AgentState_fields)) as [Hfield|Hfield].
    + rewrite hasattr_field by done.
      destruct (setattr_field st k v Hfield) as (st1 & -> & _).
      by apply IH.
    + rewrite hasattr_other by auto. by apply IH.
Qed.

(** The loop of [update_state] stops at the first key that names a method
    of the model class.  When every key before it is a field or names no
    attribute of the state object, the call raises the model's
    [ValueError] for that key, the agent is left exactly as the keys
    before it alone would have left it, and the keys after it are never
    applied. *)
Theorem update_state_stops_at_method (inherited : string -> bool)
    (pre post : list (string * PyVal)) (key : string) (value : PyVal)
    (self : base_agent.BaseAgent) :
  Forall (λ kv, kv.1 ∉ base_agent.AgentState_fields ->
                base_agent.other_attr inherited kv.1 = false) pre ->
  key ∈ base_agent.BaseModel_attrs ->
  base_agent.update_state inherited pre self
  = (Return tt, snd (base_agent.update_state inherited pre self)) ∧
  base_agent.update_state inherited (pre ++ (key, value) :: post) self
  = (Raise (base_agent.no_field key),
     snd (base_agent.update_state inherited pre self)).
Proof.
  intros Hpre Hkey. unfold base_agent.update_state.
  destruct (update_state_items_prefix inherited pre (base_agent.state self) Hpre)
    as (st' & Hp & Hrest).
  rewrite Hrest, Hp. cbn [base_agent.update_state_items snd].
  destruct (setattr_method inherited st' key value Hkey) as [-> ->]. done.
Qed.

Lemma update_state_stops_at_method_witness :
  base_agent.update_state sample_attrs [("memory", VStr "m"); ("mood", VNone)]
    (base_agent.obj (agents sample_world 1))
  = (Return tt,
     snd (base_agent.update_state sample_attrs
            [("memory", VStr "m"); ("mood", VNone)]
            (base_agent.obj (agents sample_world 1)))) ∧
  base_agent.update_state sample_attrs
    ([("memory", VStr "m"); ("mood", VNone)]
       ++ ("schema", VNone) :: [("confidence", VFloat (1 # 2))])
    (base_agent.obj (agents sample_world 1))
  = (Raise (base_agent.no_field "schema"),
     snd (base_agent.update_state sample_attrs
            [("memory", VStr "m"); ("mood", VNone)]
            (base_agent.obj (agents sample_world 1)))).
Proof.
  apply (update_state_stops_at_method sample_attrs
           [("memory", VStr "m"); ("mood", VNone)]
           [("confidence", VFloat (1 # 2))] "schema" VNone
           (base_agent.obj (agents sample_world 1))).
  - repeat constructor; intros _; reflexivity.
  - unfold base_agent.BaseModel_attrs. rewrite !elem_of_cons. tauto.
Defined.

Lemma AgentState_dict_getattr (st : base_agent.AgentState) (f : string) :
  getitem (base_agent.AgentState_dict st) f = base_agent.getattr st f.
Proof. reflexivity. Qed.

(** [reflect] reads back what [update_state] wrote.  For a mapping each of
    whose keys is a field or names no attribute of the state object,
    [update_state] returns and the report of [reflect] on the updated agent
    shows, under [state], the given value of every field the mapping names
    and the old value of every other field; its [confidence] and
    [current_focus] entries are the [confidence] and [current_task] fields
    of that same state. *)
Theorem reflect_after_update_state (inherited : string -> bool)
    (items : list (string * PyVal)) (self : base_agent.BaseAgent) :
  NoDup items.*1 ->
  Forall (λ kv, kv.1 ∉ base_agent.AgentState_fields ->
                base_agent.other_attr inherited kv.1 = false) items ->
  let r := base_agent.update_state inherited items self in
  fst r = Return tt ∧
  ∃ st, getitem (base_agent.reflect (snd r)) "state" = Some st ∧
        (∀ f, f ∈ base_agent.AgentState_fields ->
              getitem st f = match dict_get items f with
                             | Some v => Some v
                             | None => base_agent.getattr (base_agent.state self) f
                             end) ∧
        getitem (base_agent.reflect (snd r)) "confidence" = getitem st "confidence" ∧
        getitem (base_agent.reflect (snd r)) "current_focus"
        = getitem st "current_task".
Proof.
  intros Hnd Hattrs. cbn zeta. unfold base_agent.update_state.
  destruct (update_state_items_fields inherited items (base_agent.state self)
              Hnd Hattrs) as (st' & -> & Hget).
  cbn [fst snd]. split; [done|].
  exists (base_agent.AgentState_dict st'). split; [done|]. split; [|done].
  intros f Hf. rewrite AgentState_dict_getattr. by apply Hget.
Qed.

Lemma reflect_after_update_state_witness :
  let r := base_agent.update_state sample_attrs
             [("confidence", VFloat (1 # 2)); ("mood", VNone)]
             (base_agent.obj (agents sample_world 1)) in
  fst r = Return tt ∧
  ∃ st, getitem (base_agent.reflect (snd r)) "state" = Some st ∧
        (∀ f, f ∈ base_agent.AgentState_fields ->
              getitem st f
              = match dict_get [("confidence", VFloat (1 # 2)); ("mood", VNone)] f with
                | Some v => Some v
                | None => base_agent.getattr
                            (base_agent.state (base_agent.obj (agents sample_world 1))) f
                end) ∧
        getitem (base_agent.reflect (snd r)) "confidence" = getitem st "confidence" ∧
        getitem (base_agent.reflect (snd r)) "current_focus"
        = getitem st "current_task".
Proof.
  apply (reflect_after_update_state sample_attrs
           [("confidence", VFloat (1 # 2)); ("mood", VNone)]
           (base_agent.obj (agents sample_world 1))).
  - cbn. repeat constructor; rewrite ?elem_of_cons, ?elem_of_nil;
      try (intros [?|[]]; discriminate); by intros [].
  - repeat constructor; intros _; reflexivity.
Defined.
